(** * Crypto portfolio tracker: the redux slices and sagas, and their properties

    A shallow embedding of the state layer of the application:
    - [store/slices/authSlice.ts], [cryptoSlice.ts], [portfolioSlice.ts]
      (the reducers),
    - [store/sagas/authSaga.ts], [cryptoSaga.ts], [portfolioSaga.ts]
      (the side effects: AsyncStorage, the CoinGecko request),
    - the two handlers of the pages that guard the portfolio requests
      ([handleAddToPortfolio] of the dashboard, [handleUpdateQuantity] of the
      portfolio page).

    A JavaScript [number] is an IEEE 754 binary64 value, modelled by Rocq's
    primitive floats.  An object used as a dictionary is a plain object: its
    own properties are a finite map, and a read also sees the members it
    inherits from [Object.prototype].  A saga is a computation over the redux state and the
    device storage that may throw; what the outside world answers to a
    storage call or to the HTTP request is an explicit argument. *)

From Stdlib Require Import Floats ZArith String List Bool Lia.
From stdpp Require Import base option list gmap strings pretty.

Local Open Scope string_scope.
Local Open Scope list_scope.

(** ** JavaScript values *)

(** [number]: a double. [*], [+] and [>] are the IEEE operations. *)
Abbreviation number := float.

(** What a [catch (error)] clause receives: an [Error] object with its
    [message], or some other thrown value.  The sagas only ever test
    [error instanceof Error] and read [error.message]. *)
Inductive Thrown : Type :=
| Error (message : string)
| NotAnError.

(** [error instanceof Error ? error.message : fallback] *)
Definition message_or (fallback : string) (error : Thrown) : string :=
  match error with
  | Error message => message
  | NotAnError => fallback
  end.

(** [Array.prototype.findIndex]; [None] stands for the result [-1]. *)
Fixpoint findIndex {A : Type} (p : A -> bool) (l : list A) : option nat :=
  match l with
  | [] => None
  | x :: l' => if p x then Some 0 else S <$> findIndex p l'
  end.

(** What the read of a property of a price dictionary gives when it is not
    [undefined]: a number that was stored under the key, or the member of
    [Object.prototype] of that name (a function, or for [__proto__] the
    prototype object itself). *)
Inductive Value : Type :=
| Number (n : number)
| PrototypeMember (key : string).

(** [ToNumber], as [*] applies it to its operands: a function and the
    prototype object both convert to [NaN]. *)
Definition ToNumber (v : Value) : number :=
  match v with
  | Number n => n
  | PrototypeMember _ => PrimFloat.nan
  end.

(** A plain object, as the literal [{}] creates it, used as a dictionary.
    The finite map holds its own properties. *)
Module JSObject.
(** The names of the members of [Object.prototype]. *)
Definition prototype_keys : list string :=
  ["constructor"; "__defineGetter__"; "__defineSetter__"; "hasOwnProperty";
   "__lookupGetter__"; "__lookupSetter__"; "isPrototypeOf"; "propertyIsEnumerable";
   "toString"; "valueOf"; "__proto__"; "toLocaleString"].

Definition inherited (key : string) : bool :=
  existsb (String.eqb key) prototype_keys.

(** [obj[key] = v], for a primitive [v]: an own property is created or
    overwritten, except under [__proto__], where the assignment goes to the
    setter of the prototype, which ignores a primitive. *)
Definition set {A : Type} (key : string) (v : A) (own : gmap string A) : gmap string A :=
  if String.eqb key "__proto__" then own else <[key := v]> own.

(** [obj[key]], of a dictionary of numbers: the own property if there is
    one, else the inherited member if there is one, else [undefined]
    ([None]). *)
Definition get (key : string) (own : gmap string number) : option Value :=
  match own !! key with
  | Some n => Some (Number n)
  | None => if inherited key then Some (PrototypeMember key) else None
  end.
End JSObject.

(** ** The slices *)

(** *** cryptoSlice.ts *)
Module Coin.
Record t : Type := mk {
  id : string;
  name : string;
  symbol : string;
  image : string;
  current_price : number;
  price_change_percentage_24h : number;
  market_cap : number
}.
End Coin.
Abbreviation Coin := Coin.t.

(** *** portfolioSlice.ts: the item type *)
Record PortfolioItem : Type := mkItem {
  coinId : string;
  name : string;
  symbol : string;
  image : string;
  quantity : number;
  currentPrice : Value;   (* declared [number]; holds what the price update read *)
  value : number
}.

Module authSlice.
Record AuthState : Type := mk {
  isAuthenticated : bool;
  token : option string;
  loading : bool;
  error : option string
}.

Definition initialState : AuthState :=
  {| isAuthenticated := false; token := None; loading := false; error := None |}.

Definition loginRequest (state : AuthState) : AuthState :=
  {| isAuthenticated := isAuthenticated state; token := token state;
     loading := true; error := None |}.

Definition loginSuccess (state : AuthState) (payload : string) : AuthState :=
  {| isAuthenticated := true; token := Some payload;
     loading := false; error := None |}.

Definition loginFailure (state : AuthState) (payload : string) : AuthState :=
  {| isAuthenticated := false; token := None;
     loading := false; error := Some payload |}.

Definition logout (state : AuthState) : AuthState :=
  {| isAuthenticated := false; token := None; loading := false; error := None |}.

(** [if (action.payload)]: [null] and the empty string are both falsy. *)
Definition setAuthFromStorage (state : AuthState) (payload : option string) : AuthState :=
  match payload with
  | Some tok =>
      if String.eqb tok "" then
        {| isAuthenticated := false; token := None;
           loading := loading state; error := error state |}
      else
        {| isAuthenticated := true; token := Some tok;
           loading := loading state; error := error state |}
  | None =>
      {| isAuthenticated := false; token := None;
         loading := loading state; error := error state |}
  end.
End authSlice.

Module cryptoSlice.
Record CryptoState : Type := mk {
  coins : list Coin;
  loading : bool;
  error : option string;
  lastUpdated : option Z;
  refreshing : gmap string bool
}.

Definition initialState : CryptoState :=
  {| coins := []; loading := false; error := None;
     lastUpdated := None; refreshing := ∅ |}.

Definition fetchCryptoDataRequest (state : CryptoState) : CryptoState :=
  {| coins := coins state; loading := true; error := None;
     lastUpdated := lastUpdated state; refreshing := refreshing state |}.

(** [now] is the value of [Date.now()] when the reducer runs. *)
Definition fetchCryptoDataSuccess (now : Z) (state : CryptoState)
    (payload : list Coin) : CryptoState :=
  {| coins := payload; loading := false; error := None;
     lastUpdated := Some now; refreshing := refreshing state |}.

Definition fetchCryptoDataFailure (state : CryptoState) (payload : string) : CryptoState :=
  {| coins := coins state; loading := false; error := Some payload;
     lastUpdated := lastUpdated state; refreshing := refreshing state |}.

Definition startRefreshPolling (state : CryptoState) : CryptoState := state.
Definition stopRefreshPolling (state : CryptoState) : CryptoState := state.

Definition setCoinRefreshing (state : CryptoState) (coinId : string)
    (flag : bool) : CryptoState :=
  {| coins := coins state; loading := loading state; error := error state;
     lastUpdated := lastUpdated state;
     refreshing := JSObject.set coinId flag (refreshing state) |}.
End cryptoSlice.

Module portfolioSlice.
Record PortfolioState : Type := mk {
  items : list PortfolioItem;
  loading : bool;
  error : option string
}.

Definition initialState : PortfolioState :=
  {| items := []; loading := false; error := None |}.

Definition addToPortfolioRequest (state : PortfolioState) : PortfolioState :=
  {| items := items state; loading := true; error := None |}.

Definition addToPortfolioSuccess (state : PortfolioState)
    (payload : PortfolioItem) : PortfolioState :=
  let existingIndex :=
    findIndex (fun item => String.eqb (coinId item) (coinId payload)) (items state) in
  {| items := match existingIndex with
              | Some i => <[i := payload]> (items state)
              | None => items state ++ [payload]
              end;
     loading := false; error := None |}.

Definition updatePortfolioItemRequest (state : PortfolioState) : PortfolioState :=
  {| items := items state; loading := true; error := None |}.

Definition updatePortfolioItemSuccess (state : PortfolioState)
    (payload : PortfolioItem) : PortfolioState :=
  let index :=
    findIndex (fun item => String.eqb (coinId item) (coinId payload)) (items state) in
  {| items := match index with
              | Some i => <[i := payload]> (items state)
              | None => items state
              end;
     loading := false; error := None |}.

Definition removeFromPortfolio (state : PortfolioState) (payload : string) : PortfolioState :=
  {| items := List.filter (fun item => negb (String.eqb (coinId item) payload)) (items state);
     loading := loading state; error := error state |}.

(** The payload is the object [{ [coinId]: price }] built by the crypto
    saga, given by its own properties. [action.payload[item.coinId]] is a
    read of that plain object, so [newPrice] is [undefined] only when the id
    is neither an own property nor the name of an inherited member. *)
Definition updatePortfolioPrices (state : PortfolioState)
    (payload : gmap string number) : PortfolioState :=
  {| items :=
       List.map (fun item =>
         match JSObject.get (coinId item) payload with
         | Some newPrice =>
             {| coinId := coinId item; name := name item; symbol := symbol item;
                image := image item; quantity := quantity item;
                currentPrice := newPrice;
                value := PrimFloat.mul (quantity item) (ToNumber newPrice) |}
         | None => item
         end) (items state);
     loading := loading state; error := error state |}.

Definition portfolioFailure (state : PortfolioState) (payload : string) : PortfolioState :=
  {| items := items state; loading := false; error := Some payload |}.

Definition loadPortfolioFromStorage (state : PortfolioState)
    (payload : list PortfolioItem) : PortfolioState :=
  {| items := payload; loading := loading state; error := error state |}.
End portfolioSlice.

(** ** store.ts: the root state and the actions *)

Record RootState : Type := mkRoot {
  auth : authSlice.AuthState;
  crypto : cryptoSlice.CryptoState;
  portfolio : portfolioSlice.PortfolioState
}.

Definition initialRootState : RootState :=
  {| auth := authSlice.initialState;
     crypto := cryptoSlice.initialState;
     portfolio := portfolioSlice.initialState |}.

Inductive Action : Type :=
| loginRequest (username password : string)
| loginSuccess (token : string)
| loginFailure (message : string)
| logout
| setAuthFromStorage (token : option string)
| fetchCryptoDataRequest
| fetchCryptoDataSuccess (coins : list Coin)
| fetchCryptoDataFailure (message : string)
| startRefreshPolling
| stopRefreshPolling
| setCoinRefreshing (coinId : string) (flag : bool)
| addToPortfolioRequest (coin : Coin) (quantity : number)
| addToPortfolioSuccess (item : PortfolioItem)
| updatePortfolioItemRequest (coinId : string) (quantity : number)
| updatePortfolioItemSuccess (item : PortfolioItem)
| removeFromPortfolio (coinId : string)
| updatePortfolioPrices (priceMap : gmap string number)
| portfolioFailure (message : string)
| loadPortfolioFromStorage (items : list PortfolioItem).

Definition with_auth (f : authSlice.AuthState -> authSlice.AuthState)
    (s : RootState) : RootState :=
  {| auth := f (auth s); crypto := crypto s; portfolio := portfolio s |}.

Definition with_crypto (f : cryptoSlice.CryptoState -> cryptoSlice.CryptoState)
    (s : RootState) : RootState :=
  {| auth := auth s; crypto := f (crypto s); portfolio := portfolio s |}.

Definition with_portfolio
    (f : portfolioSlice.PortfolioState -> portfolioSlice.PortfolioState)
    (s : RootState) : RootState :=
  {| auth := auth s; crypto := crypto s; portfolio := f (portfolio s) |}.

(** The combined reducer: every action belongs to one slice. *)
Definition reducer (now : Z) (s : RootState) (a : Action) : RootState :=
  match a with
  | loginRequest _ _ => with_auth authSlice.loginRequest s
  | loginSuccess tok => with_auth (fun st => authSlice.loginSuccess st tok) s
  | loginFailure msg => with_auth (fun st => authSlice.loginFailure st msg) s
  | logout => with_auth authSlice.logout s
  | setAuthFromStorage tok => with_auth (fun st => authSlice.setAuthFromStorage st tok) s
  | fetchCryptoDataRequest => with_crypto cryptoSlice.fetchCryptoDataRequest s
  | fetchCryptoDataSuccess cs =>
      with_crypto (fun st => cryptoSlice.fetchCryptoDataSuccess now st cs) s
  | fetchCryptoDataFailure msg =>
      with_crypto (fun st => cryptoSlice.fetchCryptoDataFailure st msg) s
  | startRefreshPolling => with_crypto cryptoSlice.startRefreshPolling s
  | stopRefreshPolling => with_crypto cryptoSlice.stopRefreshPolling s
  | setCoinRefreshing c b => with_crypto (fun st => cryptoSlice.setCoinRefreshing st c b) s
  | addToPortfolioRequest _ _ => with_portfolio portfolioSlice.addToPortfolioRequest s
  | addToPortfolioSuccess it =>
      with_portfolio (fun st => portfolioSlice.addToPortfolioSuccess st it) s
  | updatePortfolioItemRequest _ _ =>
      with_portfolio portfolioSlice.updatePortfolioItemRequest s
  | updatePortfolioItemSuccess it =>
      with_portfolio (fun st => portfolioSlice.updatePortfolioItemSuccess st it) s
  | removeFromPortfolio c =>
      with_portfolio (fun st => portfolioSlice.removeFromPortfolio st c) s
  | updatePortfolioPrices pm =>
      with_portfolio (fun st => portfolioSlice.updatePortfolioPrices st pm) s
  | portfolioFailure msg =>
      with_portfolio (fun st => portfolioSlice.portfolioFailure st msg) s
  | loadPortfolioFromStorage its =>
      with_portfolio (fun st => portfolioSlice.loadPortfolioFromStorage st its) s
  end.

(** ** The world a saga runs in *)

(** AsyncStorage: the key/value contents, and the [setItem] and [removeItem]
    calls that completed, most recent first. *)
Module AsyncStorage.
Inductive Write : Type :=
| SetItem (key value : string)
| RemoveItem (key : string).

Record t : Type := mk {
  data : gmap string string;
  writes : list Write
}.

Definition empty : t := {| data := ∅; writes := [] |}.
End AsyncStorage.

(** How the platform settles the promise of one storage call. *)
Inductive Outcome : Type :=
| Resolves
| Rejects (error : Thrown).

Record World : Type := mkWorld {
  state : RootState;            (* the redux store *)
  storage : AsyncStorage.t;     (* the device storage *)
  clock : Z                     (* what Date.now() returns *)
}.

Definition initialWorld (now : Z) : World :=
  {| state := initialRootState; storage := AsyncStorage.empty; clock := now |}.

(** A saga: reads and updates the world, and returns or throws. *)
Definition Saga (A : Type) : Type := World -> (Thrown + A) * World.

Definition ret {A : Type} (a : A) : Saga A := fun w => (inr a, w).

Definition throw {A : Type} (error : Thrown) : Saga A := fun w => (inl error, w).

Definition bind {A B : Type} (m : Saga A) (k : A -> Saga B) : Saga B :=
  fun w =>
    match m w with
    | (inl error, w') => (inl error, w')
    | (inr a, w') => k a w'
    end.

(** [try { body } catch (error) { handler }] *)
Definition try_catch {A : Type} (body : Saga A) (handler : Thrown -> Saga A) : Saga A :=
  fun w =>
    match body w with
    | (inl error, w') => handler error w'
    | (inr a, w') => (inr a, w')
    end.

Declare Scope saga_scope.
Delimit Scope saga_scope with saga.
Notation "x <- m ;; k" := (bind m (fun x => k))
  (at level 100, m at next level, right associativity) : saga_scope.
Notation "m ;; k" := (bind m (fun _ => k))
  (at level 100, right associativity) : saga_scope.
Notation "'try' body 'catch' handler" := (try_catch body handler)
  (at level 10, body at level 100, handler at level 200) : saga_scope.
Local Open Scope saga_scope.

(** [yield select(selector)] *)
Definition select {A : Type} (selector : RootState -> A) : Saga A :=
  fun w => (inr (selector (state w)), w).

(** [yield put(action)]: the action goes through the reducer. *)
Definition put (a : Action) : Saga unit :=
  fun w => (inr tt, {| state := reducer (clock w) (state w) a;
                       storage := storage w; clock := clock w |}).

(** [Date.now()] *)
Definition Date_now : Saga Z := fun w => (inr (clock w), w).

(** [yield call(AsyncStorage.setItem, key, value)]: a call that resolves has
    stored the value; a call that rejects has stored nothing and throws in
    the saga. *)
Definition AsyncStorage_setItem (o : Outcome) (key value : string) : Saga unit :=
  fun w =>
    match o with
    | Resolves =>
        (inr tt,
         {| state := state w;
            storage := {| AsyncStorage.data := <[key := value]> (AsyncStorage.data (storage w));
                          AsyncStorage.writes :=
                            AsyncStorage.SetItem key value :: AsyncStorage.writes (storage w) |};
            clock := clock w |})
    | Rejects error => (inl error, w)
    end.

(** [yield call(AsyncStorage.getItem, key)]; [None] is [null]. *)
Definition AsyncStorage_getItem (o : Outcome) (key : string) : Saga (option string) :=
  fun w =>
    match o with
    | Resolves => (inr (AsyncStorage.data (storage w) !! key), w)
    | Rejects error => (inl error, w)
    end.

(** [yield call(AsyncStorage.removeItem, key)] *)
Definition AsyncStorage_removeItem (o : Outcome) (key : string) : Saga unit :=
  fun w =>
    match o with
    | Resolves =>
        (inr tt,
         {| state := state w;
            storage := {| AsyncStorage.data := delete key (AsyncStorage.data (storage w));
                          AsyncStorage.writes :=
                            AsyncStorage.RemoveItem key :: AsyncStorage.writes (storage w) |};
            clock := clock w |})
    | Rejects error => (inl error, w)
    end.

(** The world a worker saga leaves behind. *)
Definition exec {A : Type} (m : Saga A) (w : World) : World := snd (m w).

(** [dispatch(action)] as far as the reducers go. *)
Definition reduce (a : Action) (w : World) : World :=
  {| state := reducer (clock w) (state w) a; storage := storage w; clock := clock w |}.

(** ** store/sagas/authSaga.ts *)
Module authSaga.
Definition HARDCODED_CREDENTIALS_username : string := "admin".
Definition HARDCODED_CREDENTIALS_password : string := "admin123".

(** The half-second delay is not modelled.  The token is the template
    literal [dummy_token_${Date.now()}]. *)
Definition authenticateUser (username password : string) : Saga string :=
  if String.eqb username HARDCODED_CREDENTIALS_username
     && String.eqb password HARDCODED_CREDENTIALS_password
  then
    now <- Date_now ;;
    ret ("dummy_token_" +:+ pretty now)
  else
    throw (Error "Invalid username or password").

(** [o]: how the write of the token settles. *)
Definition loginSaga (o : Outcome) (username password : string) : Saga unit :=
  try
    (token <- authenticateUser username password ;;
     AsyncStorage_setItem o "authToken" token ;;
     put (loginSuccess token))
  catch (fun error =>
    put (loginFailure (message_or "Login failed" error))).

Definition checkAuthSaga (o : Outcome) : Saga unit :=
  try
    (token <- AsyncStorage_getItem o "authToken" ;;
     put (setAuthFromStorage token))
  catch (fun _ => put (setAuthFromStorage None)).

Definition logoutSaga (o : Outcome) : Saga unit :=
  try (AsyncStorage_removeItem o "authToken")
  catch (fun _ => ret tt).
End authSaga.

(** [dispatch(loginRequest({ username, password }))]: the reducer first,
    then the worker started by [watchLogin].  (The form of the login page
    dispatches only when both fields are filled in.) *)
Definition login (o : Outcome) (username password : string) (w : World) : World :=
  exec (authSaga.loginSaga o username password)
       (reduce (loginRequest username password) w).

(** ** store/sagas/cryptoSaga.ts *)
Module cryptoSaga.
(** What [fetch] resolves to: [response.ok], [response.statusText], and
    what [response.json()] settles to. *)
Record Response : Type := mkResponse {
  ok : bool;
  statusText : string;
  json : Thrown + list Coin
}.

(** How the request ends: a response, or a transport failure. *)
Inductive Fetch : Type :=
| Responds (response : Response)
| Fails (error : Thrown).

Definition fetchCryptoData (net : Fetch) : Saga (list Coin) :=
  match net with
  | Fails error => throw error
  | Responds response =>
      if negb (ok response) then
        throw (Error ("Failed to fetch crypto data: " +:+ statusText response))
      else
        match json response with
        | inl error => throw error
        | inr coins => ret coins
        end
  end.

(** [coins.forEach((coin) => { priceMap[coin.id] = coin.current_price })] *)
Definition priceMap (coins : list Coin) : gmap string number :=
  fold_left (fun m coin => JSObject.set (Coin.id coin) (Coin.current_price coin) m) coins ∅.

Definition fetchCryptoDataSaga (net : Fetch) : Saga unit :=
  try
    (coins <- fetchCryptoData net ;;
     put (fetchCryptoDataSuccess coins) ;;
     portfolioItems <- select (fun s => portfolioSlice.items (portfolio s)) ;;
     if Nat.ltb 0 (length portfolioItems) then
       put (updatePortfolioPrices (priceMap coins))
     else
       ret tt)
  catch (fun error =>
    put (fetchCryptoDataFailure (message_or "Failed to fetch crypto data" error))).
End cryptoSaga.

(** [dispatch(fetchCryptoDataRequest())]: one refresh, whether it comes from
    the dashboard, from pull-to-refresh or from the polling loop. *)
Definition refreshOnce (net : cryptoSaga.Fetch) (w : World) : World :=
  exec (cryptoSaga.fetchCryptoDataSaga net) (reduce fetchCryptoDataRequest w).

(** ** store/sagas/portfolioSaga.ts *)

(** [JSON.stringify] and [JSON.parse] at the one type the application uses
    them at.  They are built-ins of the JavaScript runtime: the sagas are
    parametric in them. [JSON_parse] answers [None] where [JSON.parse]
    throws a [SyntaxError]. *)
Class JSON : Type := {
  JSON_stringify : list PortfolioItem -> string;
  JSON_parse : string -> option (list PortfolioItem)
}.

Module portfolioSaga.
Section WithJSON.
Context `{JSON}.

(** [o]: how the write of the list settles. *)
Definition savePortfolioToStorage (o : Outcome) (items : list PortfolioItem) : Saga unit :=
  try (AsyncStorage_setItem o "portfolio" (JSON_stringify items))
  catch (fun _ => throw (Error "Failed to save portfolio to AsyncStorage")).

Definition addToPortfolioSaga (o : Outcome) (coin : Coin) (quantity : number) : Saga unit :=
  try
    (let value := PrimFloat.mul (Coin.current_price coin) quantity in
     let portfolioItem :=
       {| coinId := Coin.id coin;
          name := Coin.name coin;
          symbol := Coin.symbol coin;
          image := Coin.image coin;
          quantity := quantity;
          currentPrice := Number (Coin.current_price coin);
          value := value |} in
     currentItems <- select (fun s => portfolioSlice.items (portfolio s)) ;;
     let existingIndex :=
       findIndex (fun item => String.eqb (coinId item) (Coin.id coin)) currentItems in
     let updatedItems :=
       match existingIndex with
       | Some i => <[i := portfolioItem]> currentItems
       | None => currentItems ++ [portfolioItem]
       end in
     savePortfolioToStorage o updatedItems ;;
     put (addToPortfolioSuccess portfolioItem))
  catch (fun error =>
    put (portfolioFailure (message_or "Failed to add to portfolio" error))).

Definition updatePortfolioItemSaga (o : Outcome) (coinId' : string)
    (quantity' : number) : Saga unit :=
  try
    (currentItems <- select (fun s => portfolioSlice.items (portfolio s)) ;;
     match findIndex (fun item => String.eqb (coinId item) coinId') currentItems with
     | None => throw (Error "Portfolio item not found")
     | Some itemIndex =>
         match currentItems !! itemIndex with
         | None => throw NotAnError   (* unreachable: the index is in range *)
         | Some item =>
             coins <- select (fun s => cryptoSlice.coins (crypto s)) ;;
             match List.find (fun c => String.eqb (Coin.id c) coinId') coins with
             | None => throw (Error "Coin not found in crypto data")
             | Some coin =>
                 let updatedItem :=
                   {| coinId := coinId item; name := name item;
                      symbol := symbol item; image := image item;
                      quantity := quantity';
                      currentPrice := Number (Coin.current_price coin);
                      value := PrimFloat.mul (Coin.current_price coin) quantity' |} in
                 let updatedItems := <[itemIndex := updatedItem]> currentItems in
                 savePortfolioToStorage o updatedItems ;;
                 put (updatePortfolioItemSuccess updatedItem)
             end
         end
     end)
  catch (fun error =>
    put (portfolioFailure (message_or "Failed to update portfolio item" error))).

(** The worker runs once the reducer has filtered the list; a failed
    write is only logged to the console. *)
Definition removeFromPortfolioSaga (o : Outcome) (coinId' : string) : Saga unit :=
  try
    (currentItems <- select (fun s => portfolioSlice.items (portfolio s)) ;;
     let updatedItems :=
       List.filter (fun item => negb (String.eqb (coinId item) coinId')) currentItems in
     savePortfolioToStorage o updatedItems)
  catch (fun _ => ret tt).

(** One run of the worker. [stored ? JSON.parse(stored) : []]: [null] and
    the empty string are falsy. [o]: how the read settles.  (The action the
    worker puts has the type its watcher listens to, so the middleware starts
    the worker again after each run; every run reads the same storage.) *)
Definition loadPortfolioFromStorageSaga (o : Outcome) : Saga unit :=
  try
    (stored <- AsyncStorage_getItem o "portfolio" ;;
     items <- match stored with
              | None => ret []
              | Some text =>
                  if String.eqb text "" then ret []
                  else match JSON_parse text with
                       | Some items => ret items
                       | None => throw (Error "JSON Parse error")
                       end
              end ;;
     put (loadPortfolioFromStorage items))
  catch (fun _ => put (loadPortfolioFromStorage [])).
End WithJSON.
End portfolioSaga.

(** ** The portfolio operations, as the pages trigger them *)
Section Operations.
Context `{JSON}.

(** [dispatch(addToPortfolioRequest({ coin, quantity }))] *)
Definition dispatch_addToPortfolioRequest (o : Outcome) (coin : Coin)
    (quantity : number) (w : World) : World :=
  exec (portfolioSaga.addToPortfolioSaga o coin quantity)
       (reduce (addToPortfolioRequest coin quantity) w).

(** [dispatch(updatePortfolioItemRequest({ coinId, quantity }))] *)
Definition dispatch_updatePortfolioItemRequest (o : Outcome) (coinId' : string)
    (quantity' : number) (w : World) : World :=
  exec (portfolioSaga.updatePortfolioItemSaga o coinId' quantity')
       (reduce (updatePortfolioItemRequest coinId' quantity') w).

(** [dispatch(removeFromPortfolio(coinId))] *)
Definition dispatch_removeFromPortfolio (o : Outcome) (coinId' : string)
    (w : World) : World :=
  exec (portfolioSaga.removeFromPortfolioSaga o coinId')
       (reduce (removeFromPortfolio coinId') w).

(** Dashboard page, [handleAddToPortfolio(coin)]. [qty] is the parsed
    input, [parseFloat(quantity[coin.id] || '1')]; the navigation and the
    reset of the input field are not modelled. *)
Definition handleAddToPortfolio (o : Outcome) (coin : Coin) (qty : number)
    (w : World) : World :=
  if PrimFloat.ltb 0 qty then dispatch_addToPortfolioRequest o coin qty w
  else w.

(** Portfolio page, [handleUpdateQuantity(coinId)]. [newQty] is the parsed
    input, [parseFloat(editingQuantity[coinId] || '0')]; [items] is the
    list of the store the page renders. *)
Definition handleUpdateQuantity (o : Outcome) (coinId' : string) (newQty : number)
    (w : World) : World :=
  if PrimFloat.ltb 0 newQty then
    match List.find (fun item => String.eqb (coinId item) coinId')
                    (portfolioSlice.items (portfolio (state w))) with
    | Some currentItem =>
        let totalQuantity := PrimFloat.add (quantity currentItem) newQty in
        dispatch_updatePortfolioItemRequest o coinId' totalQuantity w
    | None => w
    end
  else w.

(** One run of the load worker on the world as it is. *)
Definition loadFromStorage (o : Outcome) (w : World) : World :=
  exec (portfolioSaga.loadPortfolioFromStorageSaga o) w.
End Operations.

(** Portfolio page: [items.reduce((sum, item) => sum + item.value, 0)] *)
Definition totalValue (items : list PortfolioItem) : number :=
  fold_left (fun sum item => PrimFloat.add sum (value item)) items 0%float.

(** The item list of the store. *)
Definition items_of (w : World) : list PortfolioItem :=
  portfolioSlice.items (portfolio (state w)).

(** The coin list of the store. *)
Definition coins_of (w : World) : list Coin :=
  cryptoSlice.coins (crypto (state w)).

(** ** What the properties are stated with *)

(** The derived field of an item is in step with the two it derives from. *)
Definition value_ok (item : PortfolioItem) : Prop :=
  value item = PrimFloat.mul (quantity item) (ToNumber (currentPrice item)).

(** The item as a price update leaves it, [price] being what it read. *)
Definition repriced (item : PortfolioItem) (price : Value) : PortfolioItem :=
  {| coinId := coinId item; name := name item; symbol := symbol item;
     image := image item; quantity := quantity item;
     currentPrice := price;
     value := PrimFloat.mul (quantity item) (ToNumber price) |}.

(** The item as a quantity update leaves it. *)
Definition requantified (item : PortfolioItem) (quantity' price : number) : PortfolioItem :=
  {| coinId := coinId item; name := name item; symbol := symbol item;
     image := image item; quantity := quantity';
     currentPrice := Number price;
     value := PrimFloat.mul price quantity' |}.

(** The item [add] builds from a coin. *)
Definition item_of_coin (coin : Coin) (quantity' : number) : PortfolioItem :=
  {| coinId := Coin.id coin; name := Coin.name coin; symbol := Coin.symbol coin;
     image := Coin.image coin; quantity := quantity';
     currentPrice := Number (Coin.current_price coin);
     value := PrimFloat.mul (Coin.current_price coin) quantity' |}.

(** The item of a given coin, as the pages look it up. *)
Definition holding (coinId' : string) (items : list PortfolioItem) : option PortfolioItem :=
  List.find (fun item => String.eqb (coinId item) coinId') items.

(** The list after [item] has replaced the entry of its coin, or has been
    appended: the add saga and its reducer compute it alike. *)
Definition upsert (item : PortfolioItem) (items : list PortfolioItem) : list PortfolioItem :=
  match findIndex (fun it => String.eqb (coinId it) (coinId item)) items with
  | Some i => <[i := item]> items
  | None => items ++ [item]
  end.

(** The coin of a given id in the coin list, as the update saga looks it up. *)
Definition listed (coinId' : string) (coins : list Coin) : option Coin :=
  List.find (fun c => String.eqb (Coin.id c) coinId') coins.

(** The error the portfolio slice shows, and the one the auth slice shows. *)
Definition portfolio_error (w : World) : option string :=
  portfolioSlice.error (portfolio (state w)).

Definition auth_error (w : World) : option string :=
  authSlice.error (auth (state w)).

Definition crypto_error (w : World) : option string :=
  cryptoSlice.error (crypto (state w)).

(** The session the auth slice holds. *)
Definition logged_in (w : World) : bool :=
  authSlice.isAuthenticated (auth (state w)).

Definition session_token (w : World) : option string :=
  authSlice.token (auth (state w)).

(** A refresh that fails: no response at all, or a response that is not 2xx. *)
Definition fetch_failed (net : cryptoSaga.Fetch) : Prop :=
  match net with
  | cryptoSaga.Fails _ => True
  | cryptoSaga.Responds response => cryptoSaga.ok response = false
  end.

(** The message a failed refresh is reported with. *)
Definition fetch_failure_message (net : cryptoSaga.Fetch) : string :=
  match net with
  | cryptoSaga.Fails error => message_or "Failed to fetch crypto data" error
  | cryptoSaga.Responds response =>
      "Failed to fetch crypto data: " +:+ cryptoSaga.statusText response
  end.

(** A 2xx response whose body is the coin list [coins]. *)
Definition fetched (coins : list Coin) (text : string) : cryptoSaga.Fetch :=
  cryptoSaga.Responds
    {| cryptoSaga.ok := true; cryptoSaga.statusText := text;
       cryptoSaga.json := inr coins |}.

(** A new process on the same device: the initial redux state over the
    storage that [w] leaves. *)
Definition fresh_instance (now : Z) (w : World) : World :=
  {| state := initialRootState; storage := storage w; clock := now |}.

Section Histories.
Context `{JSON}.

(** The operations that change the item list or its prices. *)
Inductive Mutation : Type :=
| Add (o : Outcome) (coin : Coin) (qty : number)
| UpdateQuantity (o : Outcome) (coinId' : string) (newQty : number)
| Remove (o : Outcome) (coinId' : string)
| Refresh (net : cryptoSaga.Fetch).

Definition mutate (m : Mutation) (w : World) : World :=
  match m with
  | Add o coin qty => handleAddToPortfolio o coin qty w
  | UpdateQuantity o coinId' newQty => handleUpdateQuantity o coinId' newQty w
  | Remove o coinId' => dispatch_removeFromPortfolio o coinId' w
  | Refresh net => refreshOnce net w
  end.

(** The worlds a session reaches from its start. *)
Inductive reachable : World -> Prop :=
| reachable_start now : reachable (initialWorld now)
| reachable_step m w : reachable w -> reachable (mutate m w).

(** The worlds a session reaches by adding coins only. *)
Inductive reachable_by_add : World -> Prop :=
| by_add_start now : reachable_by_add (initialWorld now)
| by_add_step o coin qty w :
    reachable_by_add w -> reachable_by_add (handleAddToPortfolio o coin qty w).

(** What the storage holds of the portfolio is the current list. *)
Definition persisted (w : World) : Prop :=
  match AsyncStorage.data (storage w) !! "portfolio" with
  | None => items_of w = []
  | Some text => text = JSON_stringify (items_of w)
  end.
End Histories.

(** ** Sample data *)
Module Sample.
Definition bitcoin : Coin :=
  {| Coin.id := "bitcoin"; Coin.name := "Bitcoin"; Coin.symbol := "btc";
     Coin.image := "https://assets.example/bitcoin.png";
     Coin.current_price := 50000; Coin.price_change_percentage_24h := 1.5;
     Coin.market_cap := 1000000000000 |}.

Definition ethereum : Coin :=
  {| Coin.id := "ethereum"; Coin.name := "Ethereum"; Coin.symbol := "eth";
     Coin.image := "https://assets.example/ethereum.png";
     Coin.current_price := 3000; Coin.price_change_percentage_24h := -0.5;
     Coin.market_cap := 400000000000 |}.

Definition bitcoin_repriced : Coin :=
  {| Coin.id := "bitcoin"; Coin.name := "Bitcoin"; Coin.symbol := "btc";
     Coin.image := "https://assets.example/bitcoin.png";
     Coin.current_price := 60000; Coin.price_change_percentage_24h := 20;
     Coin.market_cap := 1200000000000 |}.

(** A stand-in for the runtime's JSON: the text lists the coin ids, and
    reading knows the two lists the examples store. *)
Definition stringify (items : list PortfolioItem) : string :=
  "[" +:+ String.concat "," (List.map coinId items) +:+ "]".

Definition parse (text : string) : option (list PortfolioItem) :=
  if String.eqb text "[]" then Some []
  else if String.eqb text "[bitcoin]" then Some [item_of_coin bitcoin 2]
  else None.

#[export] Instance json : JSON := {| JSON_stringify := stringify; JSON_parse := parse |}.

Definition start : World := initialWorld 1700000000000.

(** The dashboard has loaded bitcoin and ethereum. *)
Definition loaded : World := refreshOnce (fetched [bitcoin; ethereum] "OK") start.

(** Two bitcoin were then added to the portfolio. *)
Definition holding_bitcoin : World := handleAddToPortfolio Resolves bitcoin 2 loaded.

(** Two bitcoin added before any coin list was loaded. *)
Definition added_bitcoin : World := handleAddToPortfolio Resolves bitcoin 2 start.

(** A response that is not 2xx. *)
Definition too_many_requests : cryptoSaga.Fetch :=
  cryptoSaga.Responds
    {| cryptoSaga.ok := false; cryptoSaga.statusText := "Too Many Requests";
       cryptoSaga.json := inl (Error "Unexpected token") |}.
End Sample.

(** ** The session operations, as the pages trigger them *)

(** [dispatch(logout())], as [handleLogout] of the dashboard and of the
    portfolio page does: the reducer first, then the worker started by
    [watchLogout].  The reset of the navigation is not modelled. *)
Definition dispatch_logout (o : Outcome) (w : World) : World :=
  exec (authSaga.logoutSaga o) (reduce logout w).

(** [dispatch({ type: 'auth/checkAuth' })] at the start of the app: no
    reducer handles this type, the worker started by [watchCheckAuth] runs.
    [o]: how the read of the token settles. *)
Definition checkAuth (o : Outcome) (w : World) : World :=
  exec (authSaga.checkAuthSaga o) w.

(** Login page, [handleSubmit]: [if (username && password)], and a string is
    truthy when it is not empty. *)
Definition handleSubmit (o : Outcome) (username password : string) (w : World) : World :=
  if negb (String.eqb username "") && negb (String.eqb password "")
  then login o username password w
  else w.

(** The loading flags of the three slices. *)
Definition auth_loading (w : World) : bool :=
  authSlice.loading (auth (state w)).

Definition crypto_loading (w : World) : bool :=
  cryptoSlice.loading (crypto (state w)).

Definition portfolio_loading (w : World) : bool :=
  portfolioSlice.loading (portfolio (state w)).

(** A sample coin whose id is the name of a member of [Object.prototype]. *)
Definition sample_constructor_coin : Coin :=
  {| Coin.id := "constructor"; Coin.name := "Constructor"; Coin.symbol := "ctor";
     Coin.image := "https://assets.example/constructor.png";
     Coin.current_price := 7; Coin.price_change_percentage_24h := 0;
     Coin.market_cap := 1000000 |}.

(** A sample world: logged in on the sample start. *)
Definition sample_session : World :=
  login Resolves "admin" "admin123" (initialWorld 1700000000000).

(** * Properties *)

(** ** Numbers *)

Lemma SF64mul_comm (x y : spec_float) : SF64mul x y = SF64mul y x.
Proof.
  unfold SF64mul, SFmul.
  destruct x as [sx|sx| |sx mx ex], y as [sy|sy| |sy my ey];
    try reflexivity; try (now rewrite (xorb_comm sx sy)).
  now rewrite (xorb_comm sx sy), (Pos.mul_comm mx my), (Z.add_comm ex ey).
Qed.

(** IEEE multiplication commutes. *)
Lemma number_mul_comm (x y : number) : PrimFloat.mul x y = PrimFloat.mul y x.
Proof.
  apply Prim2SF_inj. rewrite !mul_spec. apply SF64mul_comm.
Qed.

(** [q <= 0] excludes [q > 0]. *)
Lemma number_le_zero_not_gt (q : number) :
  PrimFloat.leb q 0 = true -> PrimFloat.ltb 0 q = false.
Proof.
  rewrite leb_spec, ltb_spec. unfold SFleb, SFltb.
  replace (Prim2SF 0) with (S754_zero false) by reflexivity.
  destruct (Prim2SF q) as [s|s| |s m e]; simpl; try destruct s; simpl; congruence.
Qed.

(** ** Arrays *)

Lemma findIndex_Some {A : Type} (p : A -> bool) (l : list A) (i : nat) :
  findIndex p l = Some i ->
  exists x, l !! i = Some x /\ p x = true /\ List.find p l = Some x.
Proof.
  revert i. induction l as [|a l IH]; intros i Hi; simpl in *; [discriminate|].
  destruct (p a) eqn:Ha.
  - injection Hi as <-. exists a. auto.
  - destruct (findIndex p l) as [j|] eqn:Hj; simpl in Hi; [|discriminate].
    injection Hi as <-. destruct (IH j eq_refl) as (x & Hx & Hp & Hf).
    exists x. auto.
Qed.

Lemma findIndex_None {A : Type} (p : A -> bool) (l : list A) :
  findIndex p l = None -> List.find p l = None /\ List.filter (fun x => negb (p x)) l = l.
Proof.
  induction l as [|a l IH]; intros Hn; simpl in *; [auto|].
  destruct (p a) eqn:Ha; [discriminate|].
  destruct (findIndex p l) eqn:Hj; simpl in Hn; [discriminate|].
  destruct (IH eq_refl) as [Hf Hfl]. simpl. now rewrite Hfl.
Qed.

Lemma find_findIndex {A : Type} (p : A -> bool) (l : list A) (x : A) :
  List.find p l = Some x -> exists i, findIndex p l = Some i /\ l !! i = Some x.
Proof.
  induction l as [|a l IH]; intros Hf; simpl in *; [discriminate|].
  destruct (p a) eqn:Ha.
  - injection Hf as <-. exists 0. auto.
  - destruct (IH Hf) as (i & Hi & Hx). exists (S i). rewrite Hi. auto.
Qed.

Lemma find_None_findIndex {A : Type} (p : A -> bool) (l : list A) :
  List.find p l = None -> findIndex p l = None.
Proof.
  induction l as [|a l IH]; intros Hf; simpl in *; [reflexivity|].
  destruct (p a); [discriminate|]. now rewrite (IH Hf).
Qed.

(** Replacing the first match by an item that still matches: the lookup
    finds the replacement. *)
Lemma find_insert_findIndex {A : Type} (p : A -> bool) (l : list A) (i : nat) (y : A) :
  findIndex p l = Some i -> p y = true -> List.find p (<[i := y]> l) = Some y.
Proof.
  revert i. induction l as [|a l IH]; intros i Hi Hy; simpl in *; [discriminate|].
  destruct (p a) eqn:Ha.
  - injection Hi as <-. simpl. now rewrite Hy.
  - destruct (findIndex p l) as [j|] eqn:Hj; simpl in Hi; [|discriminate].
    injection Hi as <-. simpl. rewrite Ha. now apply IH.
Qed.

Lemma find_app_new {A : Type} (p : A -> bool) (l : list A) (y : A) :
  List.find p l = None -> p y = true -> List.find p (l ++ [y]) = Some y.
Proof.
  induction l as [|a l IH]; intros Hf Hy; simpl in *.
  - now rewrite Hy.
  - destruct (p a); [discriminate|]. now apply IH.
Qed.

Lemma filter_filter_same {A : Type} (p : A -> bool) (l : list A) :
  List.filter p (List.filter p l) = List.filter p l.
Proof.
  induction l as [|a l IH]; simpl; [reflexivity|].
  destruct (p a) eqn:Ha; simpl; rewrite ?Ha, IH; reflexivity.
Qed.

Lemma Forall_insert_ok {A : Type} (P : A -> Prop) (l : list A) (i : nat) (y : A) :
  Forall P l -> P y -> Forall P (<[i := y]> l).
Proof.
  intros Hl Hy. revert i. induction Hl as [|a l Ha Hl IH]; intros i; simpl.
  - constructor.
  - destruct i; simpl; constructor; auto.
Qed.

(** ** Login *)

Lemma credentials_match (username password : string) :
  String.eqb username authSaga.HARDCODED_CREDENTIALS_username
  && String.eqb password authSaga.HARDCODED_CREDENTIALS_password = true
  <-> username = "admin" /\ password = "admin123".
Proof.
  unfold authSaga.HARDCODED_CREDENTIALS_username, authSaga.HARDCODED_CREDENTIALS_password.
  rewrite andb_true_iff, !String.eqb_eq. reflexivity.
Qed.

Lemma token_not_empty (now : Z) : "dummy_token_" +:+ pretty now <> "".
Proof. discriminate. Qed.

(** C1, as the code has it.  With the pair ("admin", "admin123"), compared
    exactly, login succeeds if the write of the token succeeds: the session
    holds the non-empty token [dummy_token_<clock>], and the storage received
    exactly one write, of that token under "authToken".  With the right pair
    and a write that fails, login fails with the message of the storage error
    and nothing is written.  With any other pair login fails with "Invalid
    username or password" and nothing is written.  So login succeeds exactly
    when the pair is the right one and the write succeeds. *)
Theorem login_outcome (o : Outcome) (username password : string) (w : World) :
  let w' := login o username password w in
  let tok := "dummy_token_" +:+ pretty (clock w) in
  (username = "admin" /\ password = "admin123" ->
     match o with
     | Resolves =>
         logged_in w' = true /\ session_token w' = Some tok /\ tok <> "" /\
         auth_error w' = None /\
         AsyncStorage.data (storage w')
           = <["authToken" := tok]> (AsyncStorage.data (storage w)) /\
         AsyncStorage.writes (storage w')
           = AsyncStorage.SetItem "authToken" tok :: AsyncStorage.writes (storage w)
     | Rejects error =>
         logged_in w' = false /\ session_token w' = None /\
         auth_error w' = Some (message_or "Login failed" error) /\
         storage w' = storage w
     end) /\
  (~ (username = "admin" /\ password = "admin123") ->
     logged_in w' = false /\ session_token w' = None /\
     auth_error w' = Some "Invalid username or password" /\
     storage w' = storage w) /\
  (logged_in w' = true <->
     username = "admin" /\ password = "admin123" /\ o = Resolves).
Proof.
  intros w' tok. subst w' tok.
  unfold login, exec, authSaga.loginSaga, try_catch, bind, authSaga.authenticateUser.
  destruct (String.eqb username authSaga.HARDCODED_CREDENTIALS_username
            && String.eqb password authSaga.HARDCODED_CREDENTIALS_password) eqn:Hpair.
  - apply credentials_match in Hpair as Hright.
    destruct o as [|error]; simpl.
    + repeat split; auto; try tauto; try apply token_not_empty.
    + repeat split; auto; try tauto; try discriminate.
      intros (_ & _ & Habs). discriminate.
  - assert (Hwrong : ~ (username = "admin" /\ password = "admin123")).
    { intros Hright. apply credentials_match in Hright. congruence. }
    simpl. repeat split; auto; try tauto; try discriminate.
Qed.

Lemma login_outcome_witness :
  let w' := login Resolves "admin" "admin123" Sample.start in
  logged_in w' = true /\ session_token w' = Some "dummy_token_1700000000000" /\
  AsyncStorage.writes (storage w')
    = [AsyncStorage.SetItem "authToken" "dummy_token_1700000000000"].
Proof.
  destruct (login_outcome Resolves "admin" "admin123" Sample.start)
    as (Hright & _ & _).
  destruct (Hright (conj eq_refl eq_refl)) as (Hin & Htok & _ & _ & _ & Hwrites).
  exact (conj Hin (conj Htok Hwrites)).
Defined.

(** C1, as stated, fails: the right pair does not log in when the storage
    refuses the token, and the failure is not "Invalid username or password". *)
Lemma login_right_pair_storage_failure :
  let w' := login (Rejects (Error "Storage is full")) "admin" "admin123" Sample.start in
  logged_in w' = false /\
  session_token w' = None /\
  auth_error w' = Some "Storage is full" /\
  auth_error w' <> Some "Invalid username or password".
Proof. vm_compute. repeat split; congruence. Qed.

(** ** Adding to the portfolio *)

Section Portfolio.
Context `{JSON}.

Lemma add_request_resolves (coin : Coin) (qty : number) (w : World) :
  let w' := dispatch_addToPortfolioRequest Resolves coin qty w in
  let items' := upsert (item_of_coin coin qty) (items_of w) in
  items_of w' = items' /\
  portfolio_error w' = None /\
  AsyncStorage.data (storage w')
    = <["portfolio" := JSON_stringify items']> (AsyncStorage.data (storage w)) /\
  auth (state w') = auth (state w) /\ crypto (state w') = crypto (state w) /\
  clock w' = clock w.
Proof.
  unfold dispatch_addToPortfolioRequest, exec, portfolioSaga.addToPortfolioSaga,
    portfolioSaga.savePortfolioToStorage, try_catch, bind, select, upsert,
    item_of_coin, items_of, portfolio_error.
  simpl. repeat split; reflexivity.
Qed.

Lemma add_request_rejects (error : Thrown) (coin : Coin) (qty : number) (w : World) :
  let w' := dispatch_addToPortfolioRequest (Rejects error) coin qty w in
  items_of w' = items_of w /\
  portfolio_error w' = Some "Failed to save portfolio to AsyncStorage" /\
  storage w' = storage w /\
  auth (state w') = auth (state w) /\ crypto (state w') = crypto (state w) /\
  clock w' = clock w.
Proof.
  unfold dispatch_addToPortfolioRequest, exec, portfolioSaga.addToPortfolioSaga,
    portfolioSaga.savePortfolioToStorage, try_catch, bind, select,
    items_of, portfolio_error.
  simpl. repeat split; reflexivity.
Qed.

(** C3, as the code has it.  A quantity [q <= 0] never reaches the saga:
    the handler of the dashboard drops it, so the world is left exactly as
    it was (item list, storage, and the error the slice shows), and no
    error is reported. *)
Theorem add_non_positive_ignored (o : Outcome) (coin : Coin) (q : number) (w : World) :
  PrimFloat.leb q 0 = true ->
  handleAddToPortfolio o coin q w = w.
Proof.
  intros Hq. unfold handleAddToPortfolio.
  now rewrite (number_le_zero_not_gt q Hq).
Qed.

(** The guard is the handler's alone: the saga takes any quantity. *)
Lemma add_saga_does_not_validate (coin : Coin) (q : number) (w : World) :
  holding (Coin.id coin) (items_of (dispatch_addToPortfolioRequest Resolves coin q w))
  = Some (item_of_coin coin q).
Proof.
  destruct (add_request_resolves coin q w) as (-> & _). unfold upsert, holding.
  set (p := fun it : PortfolioItem => String.eqb (coinId it) (Coin.id coin)).
  change (fun it : PortfolioItem => String.eqb (coinId it) (coinId (item_of_coin coin q)))
    with p.
  assert (Hp : p (item_of_coin coin q) = true) by apply String.eqb_refl.
  destruct (findIndex p (items_of w)) as [i|] eqn:Hi.
  - now apply find_insert_findIndex.
  - apply find_app_new; [|exact Hp]. now apply findIndex_None in Hi as [Hf _].
Qed.

(** C7, as the code has it.  The list is written to the storage before the
    store is updated: when the write fails, the failure is reported as
    "Failed to save portfolio to AsyncStorage", and the item list and the
    storage are left as they were before the call. *)
Theorem add_write_failure (error : Thrown) (coin : Coin) (q : number) (w : World) :
  PrimFloat.ltb 0 q = true ->
  let w' := handleAddToPortfolio (Rejects error) coin q w in
  portfolio_error w' = Some "Failed to save portfolio to AsyncStorage" /\
  items_of w' = items_of w /\
  storage w' = storage w.
Proof.
  intros Hq. unfold handleAddToPortfolio. rewrite Hq.
  destruct (add_request_rejects error coin q w) as (Hi & He & Hs & _).
  cbv zeta. auto.
Qed.
End Portfolio.

(** ** Updating a quantity *)

Section Update.
Context `{JSON}.

Lemma holding_coinId (coinId' : string) (items : list PortfolioItem) (item : PortfolioItem) :
  holding coinId' items = Some item -> coinId item = coinId'.
Proof.
  unfold holding. intros Hf. apply List.find_some in Hf as [_ Hp].
  now apply String.eqb_eq in Hp.
Qed.

(** The request for a coin that the coin list does not have. *)
Lemma update_request_unlisted (o : Outcome) (coinId' : string) (q : number)
    (w : World) (item : PortfolioItem) :
  holding coinId' (items_of w) = Some item ->
  listed coinId' (coins_of w) = None ->
  let w' := dispatch_updatePortfolioItemRequest o coinId' q w in
  portfolio_error w' = Some "Coin not found in crypto data" /\
  items_of w' = items_of w /\
  storage w' = storage w.
Proof.
  unfold holding, listed, items_of, coins_of. intros Hitem Hcoin.
  apply find_findIndex in Hitem as (i & Hi & Hx).
  unfold dispatch_updatePortfolioItemRequest, exec,
    portfolioSaga.updatePortfolioItemSaga, try_catch, bind, select, portfolio_error.
  simpl. rewrite Hi, Hx. simpl. rewrite Hcoin. simpl. auto.
Qed.

(** The request for a listed coin, when the write succeeds. *)
Lemma update_request_resolves (coinId' : string) (q : number)
    (w : World) (item : PortfolioItem) (coin : Coin) :
  holding coinId' (items_of w) = Some item ->
  listed coinId' (coins_of w) = Some coin ->
  let w' := dispatch_updatePortfolioItemRequest Resolves coinId' q w in
  let item' := requantified item q (Coin.current_price coin) in
  exists i,
    items_of w !! i = Some item /\
    items_of w' = <[i := item']> (items_of w) /\
    holding coinId' (items_of w') = Some item' /\
    portfolio_error w' = None /\
    AsyncStorage.data (storage w')
      = <["portfolio" := JSON_stringify (items_of w')]> (AsyncStorage.data (storage w)).
Proof.
  intros Hitem Hcoin. pose proof (holding_coinId _ _ _ Hitem) as Hid.
  unfold holding, listed, items_of, coins_of in *.
  apply find_findIndex in Hitem as (i & Hi & Hx).
  exists i. split; [exact Hx|].
  unfold dispatch_updatePortfolioItemRequest, exec,
    portfolioSaga.updatePortfolioItemSaga, portfolioSaga.savePortfolioToStorage,
    try_catch, bind, select, portfolio_error, requantified.
  simpl. rewrite Hi, Hx. simpl. rewrite Hcoin. simpl.
  rewrite Hid, Hi. simpl. repeat split.
  apply find_insert_findIndex; [exact Hi|]. simpl. apply String.eqb_refl.
Qed.

(** The request for a listed coin, when the write fails. *)
Lemma update_request_rejects (error : Thrown) (coinId' : string) (q : number)
    (w : World) (item : PortfolioItem) (coin : Coin) :
  holding coinId' (items_of w) = Some item ->
  listed coinId' (coins_of w) = Some coin ->
  let w' := dispatch_updatePortfolioItemRequest (Rejects error) coinId' q w in
  portfolio_error w' = Some "Failed to save portfolio to AsyncStorage" /\
  items_of w' = items_of w /\
  storage w' = storage w.
Proof.
  unfold holding, listed, items_of, coins_of. intros Hitem Hcoin.
  apply find_findIndex in Hitem as (i & Hi & Hx).
  unfold dispatch_updatePortfolioItemRequest, exec,
    portfolioSaga.updatePortfolioItemSaga, portfolioSaga.savePortfolioToStorage,
    try_catch, bind, select, portfolio_error.
  simpl. rewrite Hi, Hx. simpl. rewrite Hcoin. simpl. auto.
Qed.

(** The request for a coin the portfolio does not hold. *)
Lemma update_request_missing (o : Outcome) (coinId' : string) (q : number) (w : World) :
  holding coinId' (items_of w) = None ->
  let w' := dispatch_updatePortfolioItemRequest o coinId' q w in
  portfolio_error w' = Some "Portfolio item not found" /\
  items_of w' = items_of w /\
  storage w' = storage w.
Proof.
  unfold holding, items_of. intros Hitem. apply find_None_findIndex in Hitem.
  unfold dispatch_updatePortfolioItemRequest, exec,
    portfolioSaga.updatePortfolioItemSaga, try_catch, bind, select, portfolio_error.
  simpl. rewrite Hitem. simpl. auto.
Qed.

(** C4, as the code has it.  For an item of quantity [q0]: a delta [d > 0]
    makes the quantity [q0 + d] (and the price the listed one, the value
    their product) when the coin is in the coin list and the write of the
    list succeeds; any other delta is dropped by the handler of the page,
    which leaves the world as it was and reports no error. *)
Theorem update_quantity_additive (coinId' : string) (d : number) (w : World)
    (item : PortfolioItem) :
  holding coinId' (items_of w) = Some item ->
  (PrimFloat.ltb 0 d = true ->
     forall coin, listed coinId' (coins_of w) = Some coin ->
     let w' := handleUpdateQuantity Resolves coinId' d w in
     exists item',
       holding coinId' (items_of w') = Some item' /\
       quantity item' = PrimFloat.add (quantity item) d /\
       currentPrice item' = Number (Coin.current_price coin) /\
       value item' = PrimFloat.mul (Coin.current_price coin) (quantity item') /\
       portfolio_error w' = None) /\
  (PrimFloat.ltb 0 d = false ->
     forall o, handleUpdateQuantity o coinId' d w = w).
Proof.
  intros Hitem. split.
  - intros Hd coin Hcoin. unfold handleUpdateQuantity. rewrite Hd.
    unfold holding, items_of in Hitem. rewrite Hitem.
    destruct (update_request_resolves coinId' (PrimFloat.add (quantity item) d)
                w item coin Hitem Hcoin) as (i & _ & _ & Hh & He & _).
    eexists. split; [exact Hh|]. simpl. auto.
  - intros Hd o. unfold handleUpdateQuantity. now rewrite Hd.
Qed.

(** C10.  The update of a held coin that the coin list does not have fails
    with "Coin not found in crypto data", whatever the requested quantity,
    and leaves the item list and the storage as they were; so does the
    handler of the page for a delta [d > 0]. *)
Theorem update_unlisted_coin_fails (o : Outcome) (coinId' : string) (w : World)
    (item : PortfolioItem) :
  holding coinId' (items_of w) = Some item ->
  listed coinId' (coins_of w) = None ->
  (forall q,
     let w' := dispatch_updatePortfolioItemRequest o coinId' q w in
     portfolio_error w' = Some "Coin not found in crypto data" /\
     items_of w' = items_of w /\
     storage w' = storage w) /\
  (forall d, PrimFloat.ltb 0 d = true ->
     let w' := handleUpdateQuantity o coinId' d w in
     portfolio_error w' = Some "Coin not found in crypto data" /\
     items_of w' = items_of w /\
     storage w' = storage w).
Proof.
  intros Hitem Hcoin. split.
  - intros q. now apply (update_request_unlisted o coinId' q w item).
  - intros d Hd. unfold handleUpdateQuantity. rewrite Hd.
    unfold holding, items_of in Hitem. rewrite Hitem.
    now apply (update_request_unlisted o coinId' _ w item).
Qed.
End Update.

(** ** Removing from the portfolio *)

Section Removal.
Context `{JSON}.

Lemma find_filter_other {A : Type} (p q : A -> bool) (l : list A) :
  (forall x, p x = true -> q x = true) ->
  List.find p (List.filter q l) = List.find p l.
Proof.
  intros Hpq. induction l as [|a l IH]; simpl; [reflexivity|].
  destruct (q a) eqn:Hq; simpl.
  - now rewrite IH.
  - destruct (p a) eqn:Hp; [|exact IH].
    apply Hpq in Hp. congruence.
Qed.

Lemma find_filter_negb {A : Type} (p : A -> bool) (l : list A) :
  List.find p (List.filter (fun x => negb (p x)) l) = None.
Proof.
  induction l as [|a l IH]; simpl; [reflexivity|].
  destruct (p a) eqn:Hp; simpl; [exact IH|]. now rewrite Hp.
Qed.

Lemma portfolio_state_eta (st : portfolioSlice.PortfolioState) :
  {| portfolioSlice.items := portfolioSlice.items st;
     portfolioSlice.loading := portfolioSlice.loading st;
     portfolioSlice.error := portfolioSlice.error st |} = st.
Proof. now destruct st. Qed.

Lemma root_state_eta (s : RootState) :
  {| auth := auth s; crypto := crypto s; portfolio := portfolio s |} = s.
Proof. now destruct s. Qed.

(** What one removal does to the store and to the storage. *)
Lemma remove_effect (o : Outcome) (coinId' : string) (w : World) :
  let w' := dispatch_removeFromPortfolio o coinId' w in
  let kept := List.filter (fun item => negb (String.eqb (coinId item) coinId')) (items_of w) in
  state w' = with_portfolio (fun st => portfolioSlice.removeFromPortfolio st coinId') (state w) /\
  items_of w' = kept /\
  AsyncStorage.data (storage w')
    = match o with
      | Resolves => <["portfolio" := JSON_stringify kept]> (AsyncStorage.data (storage w))
      | Rejects _ => AsyncStorage.data (storage w)
      end.
Proof.
  unfold dispatch_removeFromPortfolio, exec, portfolioSaga.removeFromPortfolioSaga,
    portfolioSaga.savePortfolioToStorage, try_catch, bind, select, items_of.
  destruct o; simpl; rewrite ?filter_filter_same; auto.
Qed.

(** C9.  Removal deletes the entry of the coin and keeps the others in
    their order; it changes nothing of the store when the coin is not held;
    its saga returns normally whatever the storage does, and no error is
    reported; and a second removal of the same coin leaves the store as the
    first one left it (and the storage too, once the first write went
    through). *)
Theorem remove_idempotent_total (o o2 : Outcome) (coinId' : string) (w : World) :
  let w' := dispatch_removeFromPortfolio o coinId' w in
  let w'' := dispatch_removeFromPortfolio o2 coinId' w' in
  items_of w'
    = List.filter (fun item => negb (String.eqb (coinId item) coinId')) (items_of w) /\
  holding coinId' (items_of w') = None /\
  (forall other, other <> coinId' ->
     holding other (items_of w') = holding other (items_of w)) /\
  (holding coinId' (items_of w) = None -> state w' = state w) /\
  fst (portfolioSaga.removeFromPortfolioSaga o coinId'
         (reduce (removeFromPortfolio coinId') w)) = inr tt /\
  portfolio_error w' = portfolio_error w /\
  state w'' = state w' /\
  (o = Resolves -> AsyncStorage.data (storage w'') = AsyncStorage.data (storage w')).
Proof.
  intros w' w''.
  destruct (remove_effect o coinId' w) as (Hs & Hi & Hd).
  destruct (remove_effect o2 coinId' w') as (Hs2 & Hi2 & Hd2).
  fold w' in Hs, Hi, Hd. fold w'' in Hs2, Hi2, Hd2.
  assert (Hnoop : forall v : World,
    holding coinId' (items_of v) = None ->
    with_portfolio (fun st => portfolioSlice.removeFromPortfolio st coinId') (state v)
    = state v).
  { intros v Hv. unfold holding, items_of in Hv.
    apply find_None_findIndex in Hv. apply findIndex_None in Hv as [_ Hv].
    unfold with_portfolio, portfolioSlice.removeFromPortfolio.
    rewrite Hv, portfolio_state_eta. apply root_state_eta. }
  assert (Hgone : holding coinId' (items_of w') = None).
  { rewrite Hi. apply find_filter_negb. }
  repeat apply conj.
  - exact Hi.
  - exact Hgone.
  - intros other Hother. rewrite Hi. unfold holding. apply find_filter_other.
    intros x Hx. apply String.eqb_eq in Hx. apply negb_true_iff.
    apply String.eqb_neq. congruence.
  - intros Habsent. rewrite Hs. now apply Hnoop.
  - unfold portfolioSaga.removeFromPortfolioSaga, portfolioSaga.savePortfolioToStorage,
      try_catch, bind, select. now destruct o.
  - unfold portfolio_error. now rewrite Hs.
  - rewrite Hs2. now apply Hnoop.
  - intros ->. rewrite Hd2, Hd, Hi.
    destruct o2; [|reflexivity].
    rewrite filter_filter_same. apply insert_insert_eq.
Qed.
End Removal.

(** ** Refreshing the prices *)

Section Refreshing.

Lemma priceMap_snoc (coins : list Coin) (coin : Coin) :
  cryptoSaga.priceMap (coins ++ [coin])
  = JSObject.set (Coin.id coin) (Coin.current_price coin) (cryptoSaga.priceMap coins).
Proof. unfold cryptoSaga.priceMap. now rewrite fold_left_app. Qed.

Lemma set_lookup_ne {A : Type} (key k : string) (v : A) (own : gmap string A) :
  key <> k -> JSObject.set key v own !! k = own !! k.
Proof.
  intros Hne. unfold JSObject.set. destruct (String.eqb key "__proto__"); [reflexivity|].
  now apply lookup_insert_ne.
Qed.

Lemma set_lookup_eq {A : Type} (key : string) (v : A) (own : gmap string A) :
  key <> "__proto__" -> JSObject.set key v own !! key = Some v.
Proof.
  intros Hne. apply String.eqb_neq in Hne. unfold JSObject.set. rewrite Hne.
  apply lookup_insert_eq.
Qed.

(** An id that no coin of the list has is not an own property of the price
    map. *)
Lemma priceMap_unlisted (coins : list Coin) (k : string) :
  ~ In k (List.map Coin.id coins) -> cryptoSaga.priceMap coins !! k = None.
Proof.
  induction coins as [|coin coins IH] using rev_ind; intros Hk.
  - apply lookup_empty.
  - rewrite priceMap_snoc. rewrite List.map_app, in_app_iff in Hk. simpl in Hk.
    rewrite set_lookup_ne by tauto. apply IH. tauto.
Qed.

(** An id of the list, other than [__proto__], is an own property, and its
    price is that of a coin of the list with this id (the last one, should
    the list repeat the id). *)
Lemma priceMap_listed (coins : list Coin) (k : string) :
  k <> "__proto__" ->
  In k (List.map Coin.id coins) ->
  exists coin, In coin coins /\ Coin.id coin = k /\
               cryptoSaga.priceMap coins !! k = Some (Coin.current_price coin).
Proof.
  intros Hproto.
  induction coins as [|coin coins IH] using rev_ind; intros Hk; [destruct Hk|].
  rewrite priceMap_snoc.
  destruct (decide (Coin.id coin = k)) as [Heq|Hne].
  - exists coin. rewrite in_app_iff. simpl. rewrite <- Heq, set_lookup_eq by congruence. auto.
  - rewrite List.map_app, in_app_iff in Hk. simpl in Hk.
    destruct IH as (c & Hc & Hid & Hl); [tauto|].
    exists c. rewrite in_app_iff, set_lookup_ne by exact Hne. auto.
Qed.

(** [__proto__] is never an own property of the price map. *)
Lemma priceMap_proto (coins : list Coin) :
  cryptoSaga.priceMap coins !! "__proto__" = None.
Proof.
  induction coins as [|coin coins IH] using rev_ind; [apply lookup_empty|].
  rewrite priceMap_snoc. unfold JSObject.set.
  destruct (String.eqb (Coin.id coin) "__proto__") eqn:Hid; [exact IH|].
  apply String.eqb_neq in Hid. now rewrite lookup_insert_ne.
Qed.

Lemma unique_id (coins : list Coin) (a b : Coin) :
  NoDup (List.map Coin.id coins) -> In a coins -> In b coins ->
  Coin.id a = Coin.id b -> a = b.
Proof.
  induction coins as [|c coins IH]; simpl; intros Hnd Ha Hb Hid; [destruct Ha|].
  apply NoDup_cons in Hnd as [Hc Hnd]. rewrite list_elem_of_In in Hc.
  destruct Ha as [<-|Ha], Hb as [<-|Hb]; auto.
  - exfalso. apply Hc. rewrite Hid. now apply in_map.
  - exfalso. apply Hc. rewrite <- Hid. now apply in_map.
Qed.

(** What a refresh that succeeds does to the store. *)
Lemma refresh_success (coins : list Coin) (text : string) (w : World) :
  let w' := refreshOnce (fetched coins text) w in
  coins_of w' = coins /\
  cryptoSlice.lastUpdated (crypto (state w')) = Some (clock w) /\
  crypto_error w' = None /\
  items_of w'
    = List.map (fun item =>
                  match JSObject.get (coinId item) (cryptoSaga.priceMap coins) with
                  | Some newPrice => repriced item newPrice
                  | None => item
                  end) (items_of w) /\
  storage w' = storage w.
Proof.
  unfold refreshOnce, exec, cryptoSaga.fetchCryptoDataSaga, try_catch, bind, select,
    fetched, coins_of, crypto_error, items_of.
  simpl. destruct (portfolioSlice.items (portfolio (state w))) as [|item items] eqn:Hitems;
    simpl; rewrite ?Hitems; auto.
Qed.

(** What the read of the price dictionary gives for an id. *)
Lemma price_read_listed (coins : list Coin) (k : string) :
  k <> "__proto__" ->
  In k (List.map Coin.id coins) ->
  exists coin, In coin coins /\ Coin.id coin = k /\
               JSObject.get k (cryptoSaga.priceMap coins) = Some (Number (Coin.current_price coin)).
Proof.
  intros Hproto Hin. destruct (priceMap_listed coins k Hproto Hin) as (coin & Hc & Hid & Hl).
  exists coin. unfold JSObject.get. rewrite Hl. auto.
Qed.

Lemma price_read_unlisted (coins : list Coin) (k : string) :
  ~ In k (List.map Coin.id coins) ->
  JSObject.get k (cryptoSaga.priceMap coins)
  = if JSObject.inherited k then Some (PrototypeMember k) else None.
Proof.
  intros Hout. unfold JSObject.get. now rewrite (priceMap_unlisted coins k Hout).
Qed.

Lemma price_read_proto (coins : list Coin) :
  JSObject.get "__proto__" (cryptoSaga.priceMap coins) = Some (PrototypeMember "__proto__").
Proof. unfold JSObject.get. now rewrite priceMap_proto. Qed.

(** The item at a place of the list after a refresh that succeeds. *)
Lemma refresh_success_at (coins : list Coin) (text : string) (w : World)
    (i : nat) (item : PortfolioItem) :
  items_of w !! i = Some item ->
  items_of (refreshOnce (fetched coins text) w) !! i
  = Some match JSObject.get (coinId item) (cryptoSaga.priceMap coins) with
         | Some newPrice => repriced item newPrice
         | None => item
         end.
Proof.
  intros Hi. destruct (refresh_success coins text w) as (_ & _ & _ & -> & _).
  change (@List.map PortfolioItem PortfolioItem)
    with (@fmap list _ PortfolioItem PortfolioItem).
  now rewrite list_lookup_fmap, Hi.
Qed.

(** After a refresh that succeeds with the coin list [coins], an item whose
    id is in the list and is not [__proto__] has the price of the coin of
    that id (the last one of the list if the list repeated an id) and the
    value [quantity * price], at the place in the list it had; an item whose
    id is neither in the list nor the name of a member of [Object.prototype]
    is left as it was. *)
Theorem refresh_propagates_prices (coins : list Coin) (text : string) (w : World)
    (i : nat) (item : PortfolioItem) :
  items_of w !! i = Some item ->
  let w' := refreshOnce (fetched coins text) w in
  coins_of w' = coins /\
  length (items_of w') = length (items_of w) /\
  (coinId item <> "__proto__" ->
   In (coinId item) (List.map Coin.id coins) ->
     exists coin,
       In coin coins /\ Coin.id coin = coinId item /\
       items_of w' !! i = Some (repriced item (Number (Coin.current_price coin)))) /\
  (coinId item <> "__proto__" ->
   NoDup (List.map Coin.id coins) ->
     forall coin, In coin coins -> Coin.id coin = coinId item ->
     items_of w' !! i = Some (repriced item (Number (Coin.current_price coin)))) /\
  (JSObject.inherited (coinId item) = false ->
   ~ In (coinId item) (List.map Coin.id coins) ->
     items_of w' !! i = Some item).
Proof.
  intros Hi w'. destruct (refresh_success coins text w) as (Hc & _ & _ & Hitems & _).
  pose proof (refresh_success_at coins text w i item Hi) as Hat.
  fold w' in Hc, Hitems, Hat.
  assert (Hlisted : coinId item <> "__proto__" ->
     In (coinId item) (List.map Coin.id coins) ->
     exists coin,
       In coin coins /\ Coin.id coin = coinId item /\
       items_of w' !! i = Some (repriced item (Number (Coin.current_price coin)))).
  { intros Hproto Hin.
    destruct (price_read_listed coins _ Hproto Hin) as (coin & Hcoin & Hid & Hl).
    exists coin. repeat split; auto. now rewrite Hat, Hl. }
  repeat apply conj.
  - exact Hc.
  - rewrite Hitems. apply List.length_map.
  - exact Hlisted.
  - intros Hproto Hnd coin Hcoin Hid.
    destruct (Hlisted Hproto) as (c & Hcin & Hcid & Hl).
    { rewrite <- Hid. now apply in_map. }
    rewrite (unique_id coins coin c Hnd Hcoin Hcin) by congruence. exact Hl.
  - intros Hplain Hout. now rewrite Hat, (price_read_unlisted coins _ Hout), Hplain.
Qed.

(** C5, the code at the ids that [Object.prototype] has names for.  The
    price dictionary is a plain object, and the reducer tests what it reads
    against [undefined] only.  So an item whose id is not in the coin list but
    names an inherited member ([constructor], [toString], ...) is not left as
    it was: its price becomes that member and its value [quantity * NaN]; and
    an item whose id is [__proto__] gets the prototype object as its price
    whether the list has a coin of that id or not, because the assignment
    [priceMap['__proto__'] = price] records nothing. *)
Theorem refresh_reads_inherited_members (coins : list Coin) (text : string) (w : World)
    (i : nat) (item : PortfolioItem) :
  items_of w !! i = Some item ->
  let w' := refreshOnce (fetched coins text) w in
  (JSObject.inherited (coinId item) = true ->
   ~ In (coinId item) (List.map Coin.id coins) ->
     items_of w' !! i = Some (repriced item (PrototypeMember (coinId item)))) /\
  (coinId item = "__proto__" ->
     items_of w' !! i = Some (repriced item (PrototypeMember "__proto__"))) /\
  (forall key, value (repriced item (PrototypeMember key))
               = PrimFloat.mul (quantity item) PrimFloat.nan).
Proof.
  intros Hi w'. pose proof (refresh_success_at coins text w i item Hi) as Hat.
  fold w' in Hat. repeat apply conj.
  - intros Hinh Hout. now rewrite Hat, (price_read_unlisted coins _ Hout), Hinh.
  - intros Hid. now rewrite Hat, Hid, price_read_proto.
  - reflexivity.
Qed.

(** C6.  A refresh that fails, by a response that is not 2xx or by a
    failure of the transport, is reported with its message ("Failed to fetch
    crypto data: <status text>", or the message of the error), and leaves the
    coin list, the time of the last update, the whole portfolio slice (so the
    price and the value of every item) and the storage as they were. *)
Theorem refresh_failure_keeps_state (net : cryptoSaga.Fetch) (w : World) :
  fetch_failed net ->
  let w' := refreshOnce net w in
  crypto_error w' = Some (fetch_failure_message net) /\
  coins_of w' = coins_of w /\
  cryptoSlice.lastUpdated (crypto (state w')) = cryptoSlice.lastUpdated (crypto (state w)) /\
  portfolio (state w') = portfolio (state w) /\
  auth (state w') = auth (state w) /\
  storage w' = storage w.
Proof.
  unfold fetch_failed, refreshOnce, exec, cryptoSaga.fetchCryptoDataSaga,
    cryptoSaga.fetchCryptoData, try_catch, bind, crypto_error, coins_of.
  destruct net as [response|error]; intros Hfail; simpl.
  - rewrite Hfail. simpl. repeat split; reflexivity.
  - repeat split; reflexivity.
Qed.

(** The message of a response that is not 2xx is never empty. *)
Lemma refresh_status_message_not_empty (response : cryptoSaga.Response) :
  fetch_failure_message (cryptoSaga.Responds response) <> "".
Proof. discriminate. Qed.
End Refreshing.

(** ** The value of an item *)

Section Invariant.
Context `{JSON}.

Lemma item_of_coin_value_ok (coin : Coin) (q : number) : value_ok (item_of_coin coin q).
Proof. unfold value_ok, item_of_coin. simpl. apply number_mul_comm. Qed.

Lemma requantified_value_ok (item : PortfolioItem) (q price : number) :
  value_ok (requantified item q price).
Proof. unfold value_ok, requantified. simpl. apply number_mul_comm. Qed.

Lemma repriced_value_ok (item : PortfolioItem) (price : Value) :
  value_ok (repriced item price).
Proof. reflexivity. Qed.

Lemma upsert_value_ok (item : PortfolioItem) (items : list PortfolioItem) :
  value_ok item -> Forall value_ok items -> Forall value_ok (upsert item items).
Proof.
  intros Hitem Hitems. unfold upsert.
  destruct (findIndex _ items) as [i|].
  - now apply Forall_insert_ok.
  - apply Forall_app. auto.
Qed.

Lemma add_request_value_ok (o : Outcome) (coin : Coin) (q : number) (w : World) :
  Forall value_ok (items_of w) ->
  Forall value_ok (items_of (dispatch_addToPortfolioRequest o coin q w)).
Proof.
  intros Hw. destruct o as [|error].
  - destruct (add_request_resolves coin q w) as (-> & _).
    apply upsert_value_ok; [apply item_of_coin_value_ok | exact Hw].
  - destruct (add_request_rejects error coin q w) as (-> & _). exact Hw.
Qed.

Lemma update_request_value_ok (o : Outcome) (coinId' : string) (q : number) (w : World) :
  Forall value_ok (items_of w) ->
  Forall value_ok (items_of (dispatch_updatePortfolioItemRequest o coinId' q w)).
Proof.
  intros Hw.
  destruct (holding coinId' (items_of w)) as [item|] eqn:Hitem.
  - destruct (listed coinId' (coins_of w)) as [coin|] eqn:Hcoin.
    + destruct o as [|error].
      * destruct (update_request_resolves coinId' q w item coin Hitem Hcoin)
          as (i & _ & -> & _).
        apply Forall_insert_ok; [exact Hw | apply requantified_value_ok].
      * destruct (update_request_rejects error coinId' q w item coin Hitem Hcoin)
          as (_ & -> & _). exact Hw.
    + destruct (update_request_unlisted o coinId' q w item Hitem Hcoin) as (_ & -> & _).
      exact Hw.
  - destruct (update_request_missing o coinId' q w Hitem) as (_ & -> & _). exact Hw.
Qed.

Lemma refresh_value_ok (net : cryptoSaga.Fetch) (w : World) :
  Forall value_ok (items_of w) -> Forall value_ok (items_of (refreshOnce net w)).
Proof.
  intros Hw.
  destruct net as [[[|] text [error|coins]]|error];
    try (unfold refreshOnce, exec, cryptoSaga.fetchCryptoDataSaga,
           cryptoSaga.fetchCryptoData, try_catch, bind, items_of in *; exact Hw).
  destruct (refresh_success coins text w) as (_ & _ & _ & Hitems & _).
    unfold fetched in Hitems. rewrite Hitems.
    apply List.Forall_map. eapply List.Forall_impl; [|exact Hw].
    intros item Hitem. simpl.
    destruct (JSObject.get (coinId item) (cryptoSaga.priceMap coins));
      [apply repriced_value_ok | exact Hitem].
Qed.

(** C2.  Every operation that changes the portfolio (adding a coin, updating
    a quantity, removing a coin, a refresh of the prices, whether it succeeds
    or fails) keeps the invariant: every item of the list has
    [value = quantity * currentPrice]. *)
Theorem value_invariant (m : Mutation) (w : World) :
  Forall value_ok (items_of w) ->
  Forall value_ok (items_of (mutate m w)).
Proof.
  intros Hw. destruct m as [o coin qty|o coinId' newQty|o coinId'|net]; simpl.
  - unfold handleAddToPortfolio. destruct (PrimFloat.ltb 0 qty); [|exact Hw].
    now apply add_request_value_ok.
  - unfold handleUpdateQuantity. destruct (PrimFloat.ltb 0 newQty); [|exact Hw].
    destruct (List.find _ _); [|exact Hw].
    now apply update_request_value_ok.
  - destruct (remove_effect o coinId' w) as (_ & -> & _).
    apply List.Forall_forall. intros item Hin. apply List.filter_In in Hin as [Hin _].
    revert item Hin. now apply List.Forall_forall.
  - now apply refresh_value_ok.
Qed.

(** The invariant holds all along a session. *)
Lemma reachable_value_ok (w : World) :
  reachable w -> Forall value_ok (items_of w).
Proof.
  induction 1 as [now|m w _ IH]; [constructor|].
  destruct m as [o coin qty|o coinId' newQty|o coinId'|net]; simpl.
  - unfold handleAddToPortfolio. destruct (PrimFloat.ltb 0 qty); [|exact IH].
    now apply add_request_value_ok.
  - unfold handleUpdateQuantity. destruct (PrimFloat.ltb 0 newQty); [|exact IH].
    destruct (List.find _ _); [|exact IH].
    now apply update_request_value_ok.
  - destruct (remove_effect o coinId' w) as (_ & -> & _).
    apply List.Forall_forall. intros item Hin. apply List.filter_In in Hin as [Hin _].
    revert item Hin. now apply List.Forall_forall.
  - now apply refresh_value_ok.
Qed.
End Invariant.

(** ** Storing and loading the portfolio *)

Section RoundTrip.
Context `{JSON}.

Lemma add_keeps_persisted (o : Outcome) (coin : Coin) (q : number) (w : World) :
  persisted w -> persisted (handleAddToPortfolio o coin q w).
Proof.
  intros Hw. unfold handleAddToPortfolio.
  destruct (PrimFloat.ltb 0 q); [|exact Hw].
  unfold persisted in *. destruct o as [|error].
  - destruct (add_request_resolves coin q w) as (-> & _ & -> & _).
    now rewrite lookup_insert_eq.
  - destruct (add_request_rejects error coin q w) as (-> & _ & -> & _). exact Hw.
Qed.

Lemma reachable_by_add_persisted (w : World) :
  reachable_by_add w -> persisted w.
Proof.
  induction 1 as [now|o coin qty w _ IH].
  - unfold persisted. simpl. now rewrite lookup_empty.
  - now apply add_keeps_persisted.
Qed.

(** Loading in a new process what a world has persisted. *)
Lemma load_persisted (now : Z) (w : World) :
  persisted w ->
  JSON_parse (JSON_stringify (items_of w)) = Some (items_of w) ->
  JSON_stringify (items_of w) <> "" ->
  items_of (loadFromStorage Resolves (fresh_instance now w)) = items_of w.
Proof.
  unfold persisted. intros Hw Hparse Hnonempty.
  unfold loadFromStorage, exec, portfolioSaga.loadPortfolioFromStorageSaga,
    try_catch, bind, fresh_instance. simpl.
  destruct (AsyncStorage.data (storage w) !! "portfolio") as [text|]; simpl.
  - subst text. apply String.eqb_neq in Hnonempty. rewrite Hnonempty, Hparse.
    reflexivity.
  - now rewrite Hw.
Qed.

(** In a world reached by adding coins, what the storage holds is the text
    of the current list; so, if the runtime's JSON reads back the text it
    wrote for that list, and that text is not the empty string, loading in a
    new process over the same storage gives back the same list (every field
    of every item, in the same order). *)
Theorem add_persist_load_roundtrip (now : Z) (w : World) :
  reachable_by_add w ->
  JSON_parse (JSON_stringify (items_of w)) = Some (items_of w) ->
  JSON_stringify (items_of w) <> "" ->
  items_of (loadFromStorage Resolves (fresh_instance now w)) = items_of w.
Proof.
  intros Hw. apply load_persisted. now apply reachable_by_add_persisted.
Qed.

(** A product with an infinite factor is infinite or [NaN]. *)
Lemma number_mul_infinity_not_finite (x : number) :
  PrimFloat.is_finite (PrimFloat.mul x PrimFloat.infinity) = false.
Proof.
  unfold PrimFloat.is_finite, PrimFloat.is_nan, PrimFloat.is_infinity.
  rewrite !FloatAxioms.eqb_spec, abs_spec, mul_spec.
  replace (Prim2SF PrimFloat.infinity) with (S754_infinity false) by reflexivity.
  destruct (Prim2SF x) as [s|s| |s m e]; try destruct s; reflexivity.
Qed.

(** C8, the code at a quantity that is not finite.  The guard of the
    dashboard is [qty > 0] and nothing else, so an infinite quantity (what
    [parseFloat] gives for "Infinity" and for a long enough run of digits) is
    added like any other: the world is one reached by adding, its item has an
    infinite quantity and a value that is infinite or [NaN], and it is this
    list that is handed to [JSON.stringify] and stored.  JSON has no text for
    such numbers. *)
Theorem add_stores_infinite_quantity (now : Z) (coin : Coin) :
  let w' := handleAddToPortfolio Resolves coin PrimFloat.infinity (initialWorld now) in
  reachable_by_add w' /\
  items_of w' = [item_of_coin coin PrimFloat.infinity] /\
  PrimFloat.is_finite (quantity (item_of_coin coin PrimFloat.infinity)) = false /\
  PrimFloat.is_finite (value (item_of_coin coin PrimFloat.infinity)) = false /\
  AsyncStorage.data (storage w') !! "portfolio"
    = Some (JSON_stringify [item_of_coin coin PrimFloat.infinity]).
Proof.
  repeat apply conj.
  - apply by_add_step, by_add_start.
  - reflexivity.
  - reflexivity.
  - apply number_mul_infinity_not_finite.
  - reflexivity.
Qed.

(** A value can leave the finite numbers with a finite price and a finite
    quantity too. *)
Example value_overflows :
  PrimFloat.is_finite 0x1p1023 = true /\ PrimFloat.is_finite 2 = true /\
  value (item_of_coin
           {| Coin.id := "bitcoin"; Coin.name := "Bitcoin"; Coin.symbol := "btc";
              Coin.image := ""; Coin.current_price := 0x1p1023;
              Coin.price_change_percentage_24h := 0; Coin.market_cap := 0 |} 2)
  = PrimFloat.infinity.
Proof. repeat split; reflexivity. Qed.
End RoundTrip.

(** ** The properties on the sample data *)

Section Examples.
#[local] Existing Instance Sample.json.

(** The scenario of the portfolio page: two bitcoin at 50000 are worth
    100000; one more makes three, worth 150000; removing bitcoin leaves
    nothing. *)
Example portfolio_scenario :
  let w1 := Sample.holding_bitcoin in
  let w2 := handleUpdateQuantity Resolves "bitcoin" 1 w1 in
  let w3 := dispatch_removeFromPortfolio Resolves "bitcoin" w2 in
  totalValue (items_of w1) = 100000%float /\
  List.map quantity (items_of w2) = [3%float] /\
  totalValue (items_of w2) = 150000%float /\
  totalValue (items_of w3) = 0%float.
Proof. vm_compute. auto. Qed.

Lemma value_invariant_witness :
  Forall value_ok (items_of Sample.holding_bitcoin) /\
  Forall value_ok
    (items_of (mutate (Refresh (fetched [Sample.bitcoin_repriced] "OK"))
                      Sample.holding_bitcoin)).
Proof.
  assert (Hstart : Forall value_ok (items_of Sample.holding_bitcoin)).
  { repeat constructor. }
  split; [exact Hstart|].
  apply (value_invariant (Refresh (fetched [Sample.bitcoin_repriced] "OK"))
           Sample.holding_bitcoin Hstart).
Defined.

Lemma add_non_positive_ignored_witness :
  PrimFloat.leb (-1) 0 = true /\
  handleAddToPortfolio Resolves Sample.bitcoin (-1) Sample.loaded = Sample.loaded.
Proof.
  split; [reflexivity|].
  apply (add_non_positive_ignored Resolves Sample.bitcoin (-1) Sample.loaded).
  reflexivity.
Defined.

(** C3, as stated, fails: adding a quantity of zero reports no error at
    all; the request is dropped and the world is left as it was. *)
Lemma add_zero_reports_no_error :
  let w' := handleAddToPortfolio Resolves Sample.bitcoin 0 Sample.loaded in
  PrimFloat.leb 0 0 = true /\
  portfolio_error w' = None /\
  w' = Sample.loaded.
Proof. repeat split; reflexivity. Qed.

Lemma update_quantity_additive_witness :
  exists item',
    holding "bitcoin"
      (items_of (handleUpdateQuantity Resolves "bitcoin" 1 Sample.holding_bitcoin))
      = Some item' /\
    quantity item' = PrimFloat.add 2 1 /\
    currentPrice item' = Number 50000 /\
    value item' = PrimFloat.mul 50000 (quantity item') /\
    portfolio_error (handleUpdateQuantity Resolves "bitcoin" 1 Sample.holding_bitcoin) = None.
Proof.
  destruct (update_quantity_additive "bitcoin" 1 Sample.holding_bitcoin
              (item_of_coin Sample.bitcoin 2) eq_refl) as [Hpositive _].
  exact (Hpositive eq_refl Sample.bitcoin eq_refl).
Defined.

(** C4, as stated, fails: with two bitcoin held and a delta of -1, the sum
    is 1, which is positive, yet the quantity stays 2 and nothing is
    reported. *)
Lemma update_quantity_negative_delta_dropped :
  let w := Sample.holding_bitcoin in
  let w' := handleUpdateQuantity Resolves "bitcoin" (-1) w in
  List.map quantity (items_of w) = [2%float] /\
  PrimFloat.ltb 0 (PrimFloat.add 2 (-1)) = true /\
  PrimFloat.eqb 2 (PrimFloat.add 2 (-1)) = false /\
  List.map quantity (items_of w') = [2%float] /\
  portfolio_error w' = None.
Proof. repeat split; reflexivity. Qed.

Lemma refresh_propagates_prices_witness :
  let w' := refreshOnce (fetched [Sample.bitcoin_repriced] "OK") Sample.holding_bitcoin in
  items_of Sample.holding_bitcoin !! 0 = Some (item_of_coin Sample.bitcoin 2) /\
  exists coin,
    In coin [Sample.bitcoin_repriced] /\ Coin.id coin = "bitcoin" /\
    items_of w' !! 0
      = Some (repriced (item_of_coin Sample.bitcoin 2) (Number (Coin.current_price coin))).
Proof.
  split; [reflexivity|].
  destruct (refresh_propagates_prices [Sample.bitcoin_repriced] "OK"
              Sample.holding_bitcoin 0 (item_of_coin Sample.bitcoin 2) eq_refl)
    as (_ & _ & Hlisted & _).
  apply Hlisted; [discriminate | simpl; auto].
Defined.

Lemma refresh_reads_inherited_members_witness :
  let w := handleAddToPortfolio Resolves sample_constructor_coin 3 Sample.loaded in
  let w' := refreshOnce (fetched [Sample.bitcoin; Sample.ethereum] "OK") w in
  items_of w !! 0 = Some (item_of_coin sample_constructor_coin 3) /\
  JSObject.inherited "constructor" = true /\
  items_of w' !! 0
    = Some (repriced (item_of_coin sample_constructor_coin 3) (PrototypeMember "constructor")).
Proof.
  split; [reflexivity|]. split; [reflexivity|].
  destruct (refresh_reads_inherited_members [Sample.bitcoin; Sample.ethereum] "OK"
              (handleAddToPortfolio Resolves sample_constructor_coin 3 Sample.loaded)
              0 (item_of_coin sample_constructor_coin 3) eq_refl)
    as (Hunlisted & _).
  apply Hunlisted; [reflexivity|].
  simpl. intros [Heq|[Heq|[]]]; discriminate.
Defined.

(** The same run, evaluated: the item of the coin "constructor", bought at
    7, comes out of a refresh that does not list it with a price that is no
    number and a value that is [NaN]. *)
Example refresh_corrupts_unlisted_constructor :
  let w := handleAddToPortfolio Resolves sample_constructor_coin 3 Sample.loaded in
  let w' := refreshOnce (fetched [Sample.bitcoin; Sample.ethereum] "OK") w in
  List.map currentPrice (items_of w) = [Number 7] /\
  List.map value (items_of w) = [21%float] /\
  List.map currentPrice (items_of w') = [PrototypeMember "constructor"] /\
  List.map (fun item => PrimFloat.is_nan (value item)) (items_of w') = [true].
Proof. repeat split; reflexivity. Qed.

Lemma refresh_failure_keeps_state_witness :
  let w' := refreshOnce Sample.too_many_requests Sample.holding_bitcoin in
  crypto_error w' = Some "Failed to fetch crypto data: Too Many Requests" /\
  coins_of w' = [Sample.bitcoin; Sample.ethereum] /\
  portfolio (state w') = portfolio (state Sample.holding_bitcoin).
Proof.
  destruct (refresh_failure_keeps_state Sample.too_many_requests Sample.holding_bitcoin
              eq_refl) as (He & Hc & _ & Hp & _).
  exact (conj He (conj Hc Hp)).
Defined.

Lemma add_write_failure_witness :
  let w' := handleAddToPortfolio (Rejects (Error "disk full")) Sample.bitcoin 2 Sample.loaded in
  portfolio_error w' = Some "Failed to save portfolio to AsyncStorage" /\
  items_of w' = items_of Sample.loaded /\
  storage w' = storage Sample.loaded.
Proof.
  apply (add_write_failure (Error "disk full") Sample.bitcoin 2 Sample.loaded). reflexivity.
Defined.

(** C7, as stated, fails: after an add whose write fails, the item list
    does not contain the coin; it is as empty as before the call. *)
Lemma add_write_failure_not_in_memory :
  let w' := handleAddToPortfolio (Rejects (Error "disk full")) Sample.bitcoin 2 Sample.loaded in
  PrimFloat.ltb 0 2 = true /\
  portfolio_error w' = Some "Failed to save portfolio to AsyncStorage" /\
  holding "bitcoin" (items_of w') = None /\
  items_of w' = [].
Proof. repeat split; reflexivity. Qed.

Lemma add_persist_load_roundtrip_witness :
  reachable_by_add Sample.added_bitcoin /\
  items_of Sample.added_bitcoin = [item_of_coin Sample.bitcoin 2] /\
  items_of (loadFromStorage Resolves (fresh_instance 1700000086400 Sample.added_bitcoin))
  = items_of Sample.added_bitcoin.
Proof.
  assert (Hreach : reachable_by_add Sample.added_bitcoin).
  { apply by_add_step, by_add_start. }
  split; [exact Hreach|]. split; [reflexivity|].
  apply (add_persist_load_roundtrip 1700000086400 Sample.added_bitcoin Hreach).
  - reflexivity.
  - discriminate.
Defined.

Lemma remove_idempotent_total_witness :
  let w' := dispatch_removeFromPortfolio Resolves "bitcoin" Sample.holding_bitcoin in
  let w'' := dispatch_removeFromPortfolio Resolves "bitcoin" w' in
  holding "bitcoin" (items_of w') = None /\ state w'' = state w'.
Proof.
  destruct (remove_idempotent_total Resolves Resolves "bitcoin" Sample.holding_bitcoin)
    as (_ & Hgone & _ & _ & _ & _ & Hsame & _).
  exact (conj Hgone Hsame).
Defined.

Lemma update_unlisted_coin_fails_witness :
  let w' := handleUpdateQuantity Resolves "bitcoin" 1 Sample.added_bitcoin in
  holding "bitcoin" (items_of Sample.added_bitcoin) = Some (item_of_coin Sample.bitcoin 2) /\
  listed "bitcoin" (coins_of Sample.added_bitcoin) = None /\
  portfolio_error w' = Some "Coin not found in crypto data" /\
  items_of w' = items_of Sample.added_bitcoin /\
  storage w' = storage Sample.added_bitcoin.
Proof.
  split; [reflexivity|]. split; [reflexivity|].
  destruct (update_unlisted_coin_fails Resolves "bitcoin" Sample.added_bitcoin
              (item_of_coin Sample.bitcoin 2) eq_refl eq_refl) as [_ Hhandler].
  exact (Hhandler 1%float eq_refl).
Defined.
End Examples.


(** ** The session: logging out, restoring, the login form *)

Section Session.

Lemma login_success_stores_token (o : Outcome) (username password : string) (w : World) :
  logged_in (login o username password w) = true ->
  exists tok,
    tok <> "" /\
    session_token (login o username password w) = Some tok /\
    AsyncStorage.data (storage (login o username password w)) !! "authToken" = Some tok.
Proof.
  unfold login, exec, authSaga.loginSaga, try_catch, bind, authSaga.authenticateUser,
    logged_in, session_token.
  destruct (String.eqb username authSaga.HARDCODED_CREDENTIALS_username
            && String.eqb password authSaga.HARDCODED_CREDENTIALS_password);
    [destruct o as [|error]|]; simpl; try discriminate.
  intros _. eexists. split; [apply token_not_empty|].
  split; [reflexivity|]. apply lookup_insert_eq.
Qed.

Lemma checkAuth_stored_token (now' : Z) (w : World) (tok : string) :
  AsyncStorage.data (storage w) !! "authToken" = Some tok ->
  tok <> "" ->
  logged_in (checkAuth Resolves (fresh_instance now' w)) = true /\
  session_token (checkAuth Resolves (fresh_instance now' w)) = Some tok.
Proof.
  intros Hstored Hne. apply String.eqb_neq in Hne.
  unfold checkAuth, exec, authSaga.checkAuthSaga, try_catch, bind, AsyncStorage_getItem,
    fresh_instance, logged_in, session_token.
  simpl. rewrite Hstored. simpl. rewrite Hne. auto.
Qed.

(** What restoring the session does, on any storage and whatever the read
    does: the session is authenticated exactly when the read resolves and
    the storage holds a non-empty token, which is then the token of the
    session; a read that rejects, a missing token and an empty token all give
    an unauthenticated session without a token.  No error is reported and the
    storage, the coin list and the portfolio are not touched. *)
Theorem checkAuth_outcome (o : Outcome) (w : World) :
  let w' := checkAuth o w in
  let stored := AsyncStorage.data (storage w) !! "authToken" in
  (logged_in w' = true <->
     o = Resolves /\ exists tok, stored = Some tok /\ tok <> "") /\
  (forall tok, o = Resolves -> stored = Some tok -> tok <> "" ->
     session_token w' = Some tok) /\
  (logged_in w' = false -> session_token w' = None) /\
  auth_error w' = auth_error w /\
  storage w' = storage w /\
  crypto (state w') = crypto (state w) /\
  portfolio (state w') = portfolio (state w).
Proof.
  unfold checkAuth, exec, authSaga.checkAuthSaga, try_catch, bind, AsyncStorage_getItem,
    logged_in, session_token, auth_error.
  destruct o as [|error]; simpl.
  - destruct (AsyncStorage.data (storage w) !! "authToken") as [tok|] eqn:Hstored; simpl.
    + destruct (String.eqb tok "") eqn:Hempty; simpl.
      * apply String.eqb_eq in Hempty. subst tok.
        repeat split; auto; try discriminate; try congruence.
        intros (_ & tok & Htok & Hne). congruence.
      * apply String.eqb_neq in Hempty.
        repeat split; auto; try discriminate; try congruence.
        exists tok. auto.
    + repeat split; auto; try discriminate.
      intros (_ & tok & Htok & _). discriminate.
  - repeat split; auto; try discriminate.
    intros (Ho & _). discriminate.
Qed.

(** Logging in and restoring compose: whenever a login has succeeded, a new
    process on the same device that restores the session is authenticated
    with the token the login issued. *)
Theorem login_restore_round_trip (o : Outcome) (username password : string)
    (now' : Z) (w : World) :
  logged_in (login o username password w) = true ->
  let w1 := login o username password w in
  let w2 := checkAuth Resolves (fresh_instance now' w1) in
  logged_in w2 = true /\ session_token w2 = session_token w1.
Proof.
  intros Hin w1 w2.
  destruct (login_success_stores_token o username password w Hin) as (tok & Hne & Htok & Hst).
  fold w1 in Htok, Hst. rewrite Htok.
  exact (checkAuth_stored_token now' w1 tok Hst Hne).
Qed.

(** What logging out does, whatever the storage does: the session is cleared
    (not authenticated, no token, no error shown, no loader); the token is
    deleted from the storage when the call resolves, and when it rejects the
    storage is left as it was and the failure is not reported.  The coin
    list, the item list and the stored portfolio are kept.  Logging out once
    more changes nothing of the store. *)
Theorem logout_clears_session (o o2 : Outcome) (w : World) :
  let w' := dispatch_logout o w in
  logged_in w' = false /\ session_token w' = None /\
  auth_error w' = None /\ auth_loading w' = false /\
  AsyncStorage.data (storage w')
    = match o with
      | Resolves => delete "authToken" (AsyncStorage.data (storage w))
      | Rejects _ => AsyncStorage.data (storage w)
      end /\
  crypto (state w') = crypto (state w) /\
  portfolio (state w') = portfolio (state w) /\
  AsyncStorage.data (storage w') !! "portfolio"
    = AsyncStorage.data (storage w) !! "portfolio" /\
  state (dispatch_logout o2 w') = state w'.
Proof.
  unfold dispatch_logout, exec, authSaga.logoutSaga, try_catch, bind,
    AsyncStorage_removeItem, logged_in, session_token, auth_error, auth_loading.
  destruct o as [|error], o2 as [|error2]; simpl; repeat split;
    try reflexivity; now rewrite lookup_delete_ne.
Qed.

(** After a logout whose deletion went through, a new process that restores
    the session is not authenticated, whatever its read does. *)
Theorem logout_then_restart (o : Outcome) (now' : Z) (w : World) :
  let w' := checkAuth o (fresh_instance now' (dispatch_logout Resolves w)) in
  logged_in w' = false /\ session_token w' = None.
Proof.
  unfold checkAuth, exec, authSaga.checkAuthSaga, try_catch, bind, AsyncStorage_getItem,
    dispatch_logout, authSaga.logoutSaga, AsyncStorage_removeItem, fresh_instance,
    logged_in, session_token.
  destruct o as [|error]; simpl; [|auto].
  rewrite lookup_delete_eq. simpl. auto.
Qed.

(** A logout whose deletion is rejected clears the session in memory and
    reports nothing, but the token stays in the storage: a new process that
    restores the session is authenticated again, with that token. *)
Theorem failed_logout_session_survives (error : Thrown) (now' : Z) (w : World)
    (tok : string) :
  AsyncStorage.data (storage w) !! "authToken" = Some tok ->
  tok <> "" ->
  let w' := dispatch_logout (Rejects error) w in
  let w'' := checkAuth Resolves (fresh_instance now' w') in
  logged_in w' = false /\ auth_error w' = None /\
  logged_in w'' = true /\ session_token w'' = Some tok.
Proof.
  intros Hstored Hne w' w''.
  assert (Hkept : AsyncStorage.data (storage w') !! "authToken" = Some tok) by exact Hstored.
  destruct (checkAuth_stored_token now' w' tok Hkept Hne) as [Hin Htok].
  repeat split; [exact Hin | exact Htok].
Qed.

(** The login form submits only when both fields are filled in: with an
    empty username or an empty password nothing is dispatched, so the world
    is left as it was (no "Invalid username or password", no loader, no
    access to the storage); with both filled in the form does what the login
    does; and a submission leaves the session authenticated only if it was
    already, or if the pair is the right one and the write of the token went
    through. *)
Theorem handleSubmit_guard (o : Outcome) (username password : string) (w : World) :
  (username = "" \/ password = "" -> handleSubmit o username password w = w) /\
  (username <> "" -> password <> "" ->
     handleSubmit o username password w = login o username password w) /\
  (logged_in (handleSubmit o username password w) = true ->
     logged_in w = true \/
     (username = "admin" /\ password = "admin123" /\ o = Resolves)).
Proof.
  unfold handleSubmit. repeat apply conj.
  - intros [-> | ->]; simpl; [reflexivity|]. now rewrite andb_false_r.
  - intros Hu Hp. apply String.eqb_neq in Hu, Hp. now rewrite Hu, Hp.
  - destruct (negb (String.eqb username "") && negb (String.eqb password ""));
      [|now left].
    intros Hin. right. revert Hin.
    unfold login, exec, authSaga.loginSaga, try_catch, bind, authSaga.authenticateUser,
      logged_in.
    destruct (String.eqb username authSaga.HARDCODED_CREDENTIALS_username
              && String.eqb password authSaga.HARDCODED_CREDENTIALS_password) eqn:Hpair;
      [|simpl; discriminate].
    apply credentials_match in Hpair as [-> ->].
    destruct o as [|error]; simpl; [auto | discriminate].
Qed.
End Session.

(** ** Adding: appending, replacing, and the ids of the list *)

Section Upserting.
Context `{JSON}.

Lemma find_insert_other {A : Type} (p : A -> bool) (l : list A) (i : nat) (x y : A) :
  l !! i = Some x -> p x = false -> p y = false ->
  List.find p (<[i := y]> l) = List.find p l.
Proof.
  revert i. induction l as [|a l IH]; intros i Hx Hpx Hpy; [reflexivity|].
  destruct i as [|i]; simpl in *.
  - injection Hx as ->. now rewrite Hpx, Hpy.
  - destruct (p a); [reflexivity|]. now apply IH.
Qed.

Lemma find_app_other {A : Type} (p : A -> bool) (l : list A) (y : A) :
  p y = false -> List.find p (l ++ [y]) = List.find p l.
Proof.
  intros Hpy. induction l as [|a l IH]; simpl; [now rewrite Hpy|].
  destruct (p a); [reflexivity | exact IH].
Qed.

Lemma map_insert_same {A B : Type} (f : A -> B) (l : list A) (i : nat) (x y : A) :
  l !! i = Some x -> f y = f x -> List.map f (<[i := y]> l) = List.map f l.
Proof.
  revert i. induction l as [|a l IH]; intros i Hx Hf; [reflexivity|].
  destruct i as [|i]; simpl in *.
  - injection Hx as ->. now rewrite Hf.
  - f_equal. now apply IH.
Qed.

Lemma findIndex_insert_same {A : Type} (p : A -> bool) (l : list A) (i : nat) (y : A) :
  findIndex p l = Some i -> p y = true -> findIndex p (<[i := y]> l) = Some i.
Proof.
  revert i. induction l as [|a l IH]; intros i Hi Hy; simpl in *; [discriminate|].
  destruct (p a) eqn:Ha.
  - injection Hi as <-. simpl. now rewrite Hy.
  - destruct (findIndex p l) as [j|] eqn:Hj; simpl in Hi; [|discriminate].
    injection Hi as <-. simpl. rewrite Ha. now rewrite (IH j eq_refl Hy).
Qed.

Lemma findIndex_app_new {A : Type} (p : A -> bool) (l : list A) (y : A) :
  findIndex p l = None -> p y = true -> findIndex p (l ++ [y]) = Some (length l).
Proof.
  induction l as [|a l IH]; intros Hn Hy; simpl in *; [now rewrite Hy|].
  destruct (p a); [discriminate|].
  destruct (findIndex p l); simpl in Hn; [discriminate|].
  now rewrite (IH eq_refl Hy).
Qed.

Lemma insert_app_last {A : Type} (l : list A) (x y : A) :
  <[length l := y]> (l ++ [x]) = l ++ [y].
Proof. induction l as [|a l IH]; simpl; [reflexivity|]. now rewrite IH. Qed.

Lemma insert_insert_same {A : Type} (l : list A) (i : nat) (x y : A) :
  <[i := y]> (<[i := x]> l) = <[i := y]> l.
Proof.
  revert i. induction l as [|a l IH]; intros [|i]; simpl; try reflexivity.
  now rewrite IH.
Qed.

Lemma totalValue_snoc (items : list PortfolioItem) (item : PortfolioItem) :
  totalValue (items ++ [item]) = PrimFloat.add (totalValue items) (value item).
Proof. unfold totalValue. now rewrite fold_left_app. Qed.

(** The ids of the list after an upsert: the same ids at the same places
    when the coin was held, one more id at the end when it was not. *)
Lemma upsert_ids (item : PortfolioItem) (items : list PortfolioItem) :
  List.map coinId (upsert item items)
  = match holding (coinId item) items with
    | Some _ => List.map coinId items
    | None => List.map coinId items ++ [coinId item]
    end.
Proof.
  unfold upsert, holding.
  destruct (findIndex _ items) as [i|] eqn:Hi.
  - apply findIndex_Some in Hi as (x & Hx & Hp & ->).
    apply (map_insert_same coinId items i x item Hx).
    now apply String.eqb_eq in Hp.
  - apply findIndex_None in Hi as [-> _]. now rewrite List.map_app.
Qed.

Lemma holding_None_not_in (coinId' : string) (items : list PortfolioItem) :
  holding coinId' items = None -> ~ In coinId' (List.map coinId items).
Proof.
  unfold holding. intros Hnone Hin. apply in_map_iff in Hin as (x & Hid & Hx).
  pose proof (List.find_none _ _ Hnone x Hx) as Hp. simpl in Hp.
  apply String.eqb_neq in Hp. congruence.
Qed.

Lemma upsert_NoDup (item : PortfolioItem) (items : list PortfolioItem) :
  NoDup (List.map coinId items) -> NoDup (List.map coinId (upsert item items)).
Proof.
  intros Hnd. rewrite upsert_ids.
  destruct (holding (coinId item) items) eqn:Hh; [exact Hnd|].
  apply NoDup_app. repeat split.
  - exact Hnd.
  - intros x Hx Hx'. apply list_elem_of_In in Hx. apply list_elem_of_In in Hx'.
    destruct Hx' as [<-|[]]. now apply (holding_None_not_in _ _ Hh).
  - apply NoDup_singleton.
Qed.

Lemma holding_upsert (item : PortfolioItem) (items : list PortfolioItem) :
  holding (coinId item) (upsert item items) = Some item.
Proof.
  unfold holding, upsert.
  destruct (findIndex _ items) as [i|] eqn:Hi.
  - apply find_insert_findIndex; [exact Hi | apply String.eqb_refl].
  - apply find_app_new; [|apply String.eqb_refl].
    now apply findIndex_None in Hi as [Hf _].
Qed.

(** Adding a coin that is not held appends its item at the end of the list
    and raises the total of the portfolio page by exactly
    [price * quantity]. *)
Theorem add_new_coin_appends (coin : Coin) (q : number) (w : World) :
  holding (Coin.id coin) (items_of w) = None ->
  PrimFloat.ltb 0 q = true ->
  let w' := handleAddToPortfolio Resolves coin q w in
  items_of w' = items_of w ++ [item_of_coin coin q] /\
  totalValue (items_of w')
    = PrimFloat.add (totalValue (items_of w)) (PrimFloat.mul (Coin.current_price coin) q) /\
  portfolio_error w' = None.
Proof.
  intros Hnew Hq w'. subst w'. unfold handleAddToPortfolio. rewrite Hq.
  destruct (add_request_resolves coin q w) as (Hitems & Herr & _).
  rewrite Herr, Hitems. unfold upsert.
  unfold holding in Hnew. apply find_None_findIndex in Hnew.
  change (coinId (item_of_coin coin q)) with (Coin.id coin). rewrite Hnew.
  now rewrite totalValue_snoc.
Qed.

(** Adding a coin that is held replaces its item where it stands: the new
    quantity is the one given (it is not added to the one held), the list
    keeps its length and its ids in their order, and the items of the other
    coins are the ones they were. *)
Theorem add_held_coin_replaces (coin : Coin) (q : number) (w : World)
    (old : PortfolioItem) :
  holding (Coin.id coin) (items_of w) = Some old ->
  PrimFloat.ltb 0 q = true ->
  let w' := handleAddToPortfolio Resolves coin q w in
  holding (Coin.id coin) (items_of w') = Some (item_of_coin coin q) /\
  length (items_of w') = length (items_of w) /\
  List.map coinId (items_of w') = List.map coinId (items_of w) /\
  (forall other, other <> Coin.id coin ->
     holding other (items_of w') = holding other (items_of w)).
Proof.
  intros Hold Hq w'. subst w'. unfold handleAddToPortfolio. rewrite Hq.
  destruct (add_request_resolves coin q w) as (Hitems & _).
  rewrite Hitems. clear Hitems.
  assert (Hids : List.map coinId (upsert (item_of_coin coin q) (items_of w))
                 = List.map coinId (items_of w)).
  { rewrite upsert_ids. change (coinId (item_of_coin coin q)) with (Coin.id coin).
    now rewrite Hold. }
  repeat apply conj.
  - apply (holding_upsert (item_of_coin coin q)).
  - rewrite <- (List.length_map coinId), Hids. apply List.length_map.
  - exact Hids.
  - intros other Hother. unfold upsert, holding in *.
    change (coinId (item_of_coin coin q)) with (Coin.id coin).
    apply find_findIndex in Hold as (i & Hi & Hx). rewrite Hi.
    apply (find_insert_other _ _ i old _ Hx).
    + apply String.eqb_neq.
      pose proof (findIndex_Some _ _ _ Hi) as (x & Hx' & Hp & _).
      rewrite Hx in Hx'. injection Hx' as <-. apply String.eqb_eq in Hp. congruence.
    + apply String.eqb_neq. simpl. congruence.
Qed.
End Upserting.

(** ** How the portfolio operations compose *)

Section Composing.
Context `{JSON}.

Lemma upsert_upsert (first second : PortfolioItem) (items : list PortfolioItem) :
  coinId first = coinId second ->
  upsert second (upsert first items) = upsert second items.
Proof.
  intros Hid. unfold upsert. rewrite Hid.
  set (p := fun it : PortfolioItem => String.eqb (coinId it) (coinId second)).
  assert (Hfirst : p first = true) by (unfold p; rewrite Hid; apply String.eqb_refl).
  destruct (findIndex p items) as [i|] eqn:Hi.
  - rewrite (findIndex_insert_same p items i first Hi Hfirst). apply insert_insert_same.
  - rewrite (findIndex_app_new p items first Hi Hfirst). apply insert_app_last.
Qed.

Lemma NoDup_map_filter {A B : Type} (f : A -> B) (p : A -> bool) (l : list A) :
  NoDup (List.map f l) -> NoDup (List.map f (List.filter p l)).
Proof.
  induction l as [|a l IH]; simpl; intros Hnd; [exact Hnd|].
  apply NoDup_cons in Hnd as [Ha Hnd].
  destruct (p a); simpl; [|now apply IH].
  apply NoDup_cons. split; [|now apply IH].
  intros Hin. apply Ha. apply list_elem_of_In in Hin. apply list_elem_of_In.
  apply in_map_iff in Hin as (x & Hx & Hin). apply List.filter_In in Hin as [Hin _].
  apply in_map_iff. eauto.
Qed.

(** What a refresh, whatever its outcome, does to the item list: it maps a
    function over it that keeps everything of an item but its price and its
    value. *)
Lemma refresh_items_shape (net : cryptoSaga.Fetch) (w : World) :
  exists f : PortfolioItem -> PortfolioItem,
    items_of (refreshOnce net w) = List.map f (items_of w) /\
    forall item,
      coinId (f item) = coinId item /\ name (f item) = name item /\
      symbol (f item) = symbol item /\ image (f item) = image item /\
      quantity (f item) = quantity item.
Proof.
  assert (Hsame : items_of (refreshOnce net w) = items_of w ->
    exists f : PortfolioItem -> PortfolioItem,
      items_of (refreshOnce net w) = List.map f (items_of w) /\
      forall item,
        coinId (f item) = coinId item /\ name (f item) = name item /\
        symbol (f item) = symbol item /\ image (f item) = image item /\
        quantity (f item) = quantity item).
  { intros ->. exists (fun item => item). split; [now rewrite List.map_id | auto]. }
  destruct net as [[[|] text [error|coins]]|error]; try (apply Hsame; reflexivity).
  destruct (refresh_success coins text w) as (_ & _ & _ & Hitems & _).
  unfold fetched in Hitems. eexists. split; [exact Hitems|].
  intros item. simpl.
  destruct (JSObject.get (coinId item) (cryptoSaga.priceMap coins)); auto.
Qed.

(** Adding a coin twice is adding it once with the last quantity and the
    last price: the second add overwrites what the first one stored, in the
    list and in the storage alike. *)
Theorem add_twice_keeps_last (first second : Coin) (q1 q2 : number) (w : World) :
  Coin.id first = Coin.id second ->
  PrimFloat.ltb 0 q1 = true ->
  PrimFloat.ltb 0 q2 = true ->
  let twice := handleAddToPortfolio Resolves second q2
                 (handleAddToPortfolio Resolves first q1 w) in
  let once := handleAddToPortfolio Resolves second q2 w in
  items_of twice = items_of once /\
  AsyncStorage.data (storage twice) = AsyncStorage.data (storage once).
Proof.
  intros Hid Hq1 Hq2 twice once. subst twice once.
  unfold handleAddToPortfolio. rewrite Hq1, Hq2.
  destruct (add_request_resolves first q1 w) as (Hi1 & _ & Hd1 & _).
  destruct (add_request_resolves second q2 (dispatch_addToPortfolioRequest Resolves first q1 w))
    as (Hi12 & _ & Hd12 & _).
  destruct (add_request_resolves second q2 w) as (Hi2 & _ & Hd2 & _).
  rewrite Hi12, Hd12, Hi1, Hd1, Hi2, Hd2.
  rewrite (upsert_upsert (item_of_coin first q1) (item_of_coin second q2)) by exact Hid.
  split; [reflexivity|]. apply insert_insert_eq.
Qed.

(** Adding a coin that is not held and then removing it gives back the list
    there was, whatever the storage does with the removal. *)
Theorem add_then_remove (o : Outcome) (coin : Coin) (q : number) (w : World) :
  holding (Coin.id coin) (items_of w) = None ->
  PrimFloat.ltb 0 q = true ->
  items_of (dispatch_removeFromPortfolio o (Coin.id coin)
              (handleAddToPortfolio Resolves coin q w))
  = items_of w.
Proof.
  intros Hnew Hq.
  destruct (remove_effect o (Coin.id coin) (handleAddToPortfolio Resolves coin q w))
    as (_ & -> & _).
  unfold handleAddToPortfolio. rewrite Hq.
  destruct (add_request_resolves coin q w) as (-> & _).
  unfold upsert, holding in *. apply find_None_findIndex in Hnew.
  change (coinId (item_of_coin coin q)) with (Coin.id coin). rewrite Hnew.
  apply findIndex_None in Hnew as [_ Hkept].
  rewrite List.filter_app, Hkept. simpl. rewrite String.eqb_refl. simpl.
  apply app_nil_r.
Qed.

(** No operation makes the list hold a coin twice: when the ids of the
    items are pairwise distinct they stay so through adding, updating,
    removing and refreshing. *)
Theorem portfolio_ids_unique (m : Mutation) (w : World) :
  NoDup (List.map coinId (items_of w)) ->
  NoDup (List.map coinId (items_of (mutate m w))).
Proof.
  intros Hw. destruct m as [o coin qty|o coinId' newQty|o coinId'|net]; simpl.
  - unfold handleAddToPortfolio. destruct (PrimFloat.ltb 0 qty); [|exact Hw].
    destruct o as [|error].
    + destruct (add_request_resolves coin qty w) as (-> & _). now apply upsert_NoDup.
    + destruct (add_request_rejects error coin qty w) as (-> & _). exact Hw.
  - unfold handleUpdateQuantity. destruct (PrimFloat.ltb 0 newQty); [|exact Hw].
    destruct (List.find _ _) as [item|] eqn:Hitem; [|exact Hw].
    set (q := PrimFloat.add (quantity item) newQty).
    destruct (listed coinId' (coins_of w)) as [coin|] eqn:Hcoin.
    + destruct o as [|error].
      * destruct (update_request_resolves coinId' q w item coin Hitem Hcoin)
          as (i & Hx & -> & _).
        now rewrite (map_insert_same coinId _ i item _ Hx).
      * destruct (update_request_rejects error coinId' q w item coin Hitem Hcoin)
          as (_ & -> & _). exact Hw.
    + destruct (update_request_unlisted o coinId' q w item Hitem Hcoin) as (_ & -> & _).
      exact Hw.
  - destruct (remove_effect o coinId' w) as (_ & -> & _). now apply NoDup_map_filter.
  - destruct (refresh_items_shape net w) as (f & -> & Hf).
    rewrite List.map_map.
    rewrite (List.map_ext (fun x => coinId (f x)) coinId); [exact Hw|].
    intros item. apply Hf.
Qed.

(** A refresh, whatever its outcome, writes nothing to the storage and
    leaves the session alone; of the items it changes the price and the value
    only: the list keeps its ids and its quantities, in their order.  (So
    the prices a refresh brings are not the ones a restart reads back.) *)
Theorem refresh_keeps_holdings (net : cryptoSaga.Fetch) (w : World) :
  let w' := refreshOnce net w in
  storage w' = storage w /\
  auth (state w') = auth (state w) /\
  List.map coinId (items_of w') = List.map coinId (items_of w) /\
  List.map quantity (items_of w') = List.map quantity (items_of w).
Proof.
  intros w'. subst w'.
  destruct (refresh_items_shape net w) as (f & Hitems & Hf).
  assert (Hrest : storage (refreshOnce net w) = storage w /\
                  auth (state (refreshOnce net w)) = auth (state w)).
  { unfold refreshOnce, exec, cryptoSaga.fetchCryptoDataSaga, cryptoSaga.fetchCryptoData,
      try_catch, bind, select.
    destruct net as [[[|] text [error|coins]]|error]; simpl; auto.
    destruct (portfolioSlice.items (portfolio (state w))); simpl; auto. }
  destruct Hrest as [Hst Hauth]. rewrite Hitems, !List.map_map.
  repeat split; auto; apply List.map_ext; intros item; apply Hf.
Qed.
End Composing.

(** ** Updating: the other ways it ends *)

Section UpdatingMore.
Context `{JSON}.

(** A coin that is not held cannot be updated: the request fails with
    "Portfolio item not found" and changes neither the list nor the storage,
    whatever the quantity and whatever the storage would do; and the handler
    of the page, which looks the item up first, dispatches nothing at all. *)
Theorem update_missing_item (o : Outcome) (coinId' : string) (w : World) :
  holding coinId' (items_of w) = None ->
  (forall q,
     let w' := dispatch_updatePortfolioItemRequest o coinId' q w in
     portfolio_error w' = Some "Portfolio item not found" /\
     items_of w' = items_of w /\
     storage w' = storage w) /\
  (forall d, handleUpdateQuantity o coinId' d w = w).
Proof.
  intros Hmissing. split.
  - intros q. now apply update_request_missing.
  - intros d. unfold handleUpdateQuantity.
    destruct (PrimFloat.ltb 0 d); [|reflexivity].
    unfold holding, items_of in Hmissing. now rewrite Hmissing.
Qed.

(** An update whose write is rejected is reported as "Failed to save
    portfolio to AsyncStorage" and changes nothing: the item keeps the
    quantity, the price and the value it had, and the storage its text. *)
Theorem update_write_failure (error : Thrown) (coinId' : string) (d : number)
    (w : World) (item : PortfolioItem) (coin : Coin) :
  holding coinId' (items_of w) = Some item ->
  listed coinId' (coins_of w) = Some coin ->
  PrimFloat.ltb 0 d = true ->
  let w' := handleUpdateQuantity (Rejects error) coinId' d w in
  portfolio_error w' = Some "Failed to save portfolio to AsyncStorage" /\
  items_of w' = items_of w /\
  storage w' = storage w.
Proof.
  intros Hitem Hcoin Hd. unfold handleUpdateQuantity. rewrite Hd.
  unfold holding, items_of in Hitem. rewrite Hitem.
  now apply (update_request_rejects error coinId' _ w item coin).
Qed.

(** An update that succeeds touches the item of its coin and nothing else:
    the list keeps its length and its ids in their order, the items of the
    other coins are the ones they were, the item keeps its id, name, symbol
    and image, and the storage receives the text of the new list. *)
Theorem update_touches_one_item (coinId' : string) (d : number) (w : World)
    (item : PortfolioItem) (coin : Coin) :
  holding coinId' (items_of w) = Some item ->
  listed coinId' (coins_of w) = Some coin ->
  PrimFloat.ltb 0 d = true ->
  let w' := handleUpdateQuantity Resolves coinId' d w in
  length (items_of w') = length (items_of w) /\
  List.map coinId (items_of w') = List.map coinId (items_of w) /\
  (forall other, other <> coinId' ->
     holding other (items_of w') = holding other (items_of w)) /\
  (exists item',
     holding coinId' (items_of w') = Some item' /\
     coinId item' = coinId item /\ name item' = name item /\
     symbol item' = symbol item /\ image item' = image item) /\
  AsyncStorage.data (storage w')
    = <["portfolio" := JSON_stringify (items_of w')]> (AsyncStorage.data (storage w)).
Proof.
  intros Hitem Hcoin Hd. unfold handleUpdateQuantity. rewrite Hd.
  pose proof (holding_coinId _ _ _ Hitem) as Hid.
  unfold holding, items_of in Hitem. rewrite Hitem.
  destruct (update_request_resolves coinId' (PrimFloat.add (quantity item) d)
              w item coin Hitem Hcoin) as (i & Hx & Hitems & Hh & _ & Hdata).
  cbv zeta in *.
  assert (Hids : List.map coinId
                   (items_of (dispatch_updatePortfolioItemRequest Resolves coinId'
                                (PrimFloat.add (quantity item) d) w))
                 = List.map coinId (items_of w)).
  { rewrite Hitems. now apply (map_insert_same coinId _ i item). }
  repeat apply conj.
  - rewrite <- (List.length_map coinId), Hids. apply List.length_map.
  - exact Hids.
  - intros other Hother. rewrite Hitems. unfold holding.
    apply (find_insert_other _ _ i item _ Hx); apply String.eqb_neq; simpl; congruence.
  - eexists. split; [exact Hh|]. simpl. auto.
  - exact Hdata.
Qed.
End UpdatingMore.

(** ** Refreshing: the other ways it ends *)

Section RefreshingMore.

Lemma priceMap_app_unlisted (coins after : list Coin) (k : string) :
  ~ In k (List.map Coin.id after) ->
  cryptoSaga.priceMap (coins ++ after) !! k = cryptoSaga.priceMap coins !! k.
Proof.
  induction after as [|coin after IH] using rev_ind; intros Hk.
  - now rewrite app_nil_r.
  - rewrite List.map_app, in_app_iff in Hk. simpl in Hk.
    rewrite app_assoc, priceMap_snoc, set_lookup_ne by tauto.
    apply IH. tauto.
Qed.

(** When the coin list of a response repeats an id, other than [__proto__],
    the price an item receives is that of the last coin with its id. *)
Theorem refresh_last_price_wins (before after : list Coin) (coin : Coin) (text : string)
    (w : World) (i : nat) (item : PortfolioItem) :
  items_of w !! i = Some item ->
  coinId item = Coin.id coin ->
  Coin.id coin <> "__proto__" ->
  ~ In (Coin.id coin) (List.map Coin.id after) ->
  items_of (refreshOnce (fetched (before ++ coin :: after) text) w) !! i
  = Some (repriced item (Number (Coin.current_price coin))).
Proof.
  intros Hi Hid Hproto Hlast.
  rewrite (refresh_success_at _ text w i item Hi), Hid.
  unfold JSObject.get.
  change (before ++ coin :: after) with (before ++ [coin] ++ after).
  rewrite app_assoc, (priceMap_app_unlisted _ after _ Hlast), priceMap_snoc.
  now rewrite set_lookup_eq.
Qed.

(** A 2xx response whose body cannot be read is a failed refresh too: it is
    reported with the message of the error (or "Failed to fetch crypto data"
    when what was thrown is not an error), the loader is taken down, and the
    coin list, the time of the last update, the portfolio and the storage are
    left as they were. *)
Theorem refresh_unreadable_body (text : string) (error : Thrown) (w : World) :
  let net := cryptoSaga.Responds
               {| cryptoSaga.ok := true; cryptoSaga.statusText := text;
                  cryptoSaga.json := inl error |} in
  let w' := refreshOnce net w in
  crypto_error w' = Some (message_or "Failed to fetch crypto data" error) /\
  crypto_loading w' = false /\
  coins_of w' = coins_of w /\
  cryptoSlice.lastUpdated (crypto (state w')) = cryptoSlice.lastUpdated (crypto (state w)) /\
  portfolio (state w') = portfolio (state w) /\
  storage w' = storage w.
Proof.
  unfold refreshOnce, exec, cryptoSaga.fetchCryptoDataSaga, cryptoSaga.fetchCryptoData,
    try_catch, bind, crypto_error, crypto_loading, coins_of.
  simpl. repeat split; reflexivity.
Qed.

(** A refresh that succeeds clears what the last failure left: the error is
    gone, the loader is down, the coin list is the new one, in the order of
    the response, and the time of the update is the clock's. *)
Theorem refresh_success_clears_error (coins : list Coin) (text : string) (w : World) :
  let w' := refreshOnce (fetched coins text) w in
  crypto_error w' = None /\
  crypto_loading w' = false /\
  coins_of w' = coins /\
  cryptoSlice.lastUpdated (crypto (state w')) = Some (clock w) /\
  portfolio_error w' = portfolio_error w.
Proof.
  unfold refreshOnce, exec, cryptoSaga.fetchCryptoDataSaga, try_catch, bind, select,
    fetched, coins_of, crypto_error, crypto_loading, portfolio_error.
  simpl. destruct (portfolioSlice.items (portfolio (state w))); simpl; auto.
Qed.
End RefreshingMore.

(** ** Loading, and what a restart reads back *)

Section Restarting.
Context `{JSON}.

(** Loading never fails, and never reports: when the read is rejected, when
    nothing is stored, when the stored text is empty or when it does not
    parse, the item list becomes empty (whatever it held) and the error of
    the slice, its loader and the storage are left as they were. *)
Theorem load_degrades_to_empty (o : Outcome) (w : World) :
  (o <> Resolves \/
   AsyncStorage.data (storage w) !! "portfolio" = None \/
   AsyncStorage.data (storage w) !! "portfolio" = Some "" \/
   exists text, AsyncStorage.data (storage w) !! "portfolio" = Some text /\
                JSON_parse text = None) ->
  let w' := loadFromStorage o w in
  items_of w' = [] /\
  portfolio_error w' = portfolio_error w /\
  portfolio_loading w' = portfolio_loading w /\
  storage w' = storage w /\
  auth (state w') = auth (state w) /\
  crypto (state w') = crypto (state w).
Proof.
  unfold loadFromStorage, exec, portfolioSaga.loadPortfolioFromStorageSaga, try_catch, bind,
    AsyncStorage_getItem, items_of, portfolio_error, portfolio_loading.
  intros Hcase. destruct o as [|error]; simpl; [|repeat split; reflexivity].
  destruct Hcase as [Ho | [Hs | [Hs | (text & Hs & Hparse)]]].
  - now destruct Ho.
  - rewrite Hs. simpl. repeat split; reflexivity.
  - rewrite Hs. simpl. repeat split; reflexivity.
  - rewrite Hs. simpl. destruct (String.eqb text ""); simpl; [repeat split; reflexivity|].
    rewrite Hparse. simpl. repeat split; reflexivity.
Qed.

(** When the read resolves with a text that parses, the list becomes the
    parsed one, and it replaces the list there was. *)
Lemma load_stored_text (w : World) (text : string) (stored : list PortfolioItem) :
  AsyncStorage.data (storage w) !! "portfolio" = Some text ->
  text <> "" ->
  JSON_parse text = Some stored ->
  let w' := loadFromStorage Resolves w in
  items_of w' = stored /\
  portfolio_error w' = portfolio_error w /\
  storage w' = storage w.
Proof.
  unfold loadFromStorage, exec, portfolioSaga.loadPortfolioFromStorageSaga, try_catch, bind,
    AsyncStorage_getItem, items_of, portfolio_error.
  intros Hstored Hne Hparse. apply String.eqb_neq in Hne. simpl.
  rewrite Hstored. simpl. rewrite Hne, Hparse. simpl. auto.
Qed.

Lemma update_request_keeps_persisted (o : Outcome) (coinId' : string) (q : number)
    (w : World) :
  persisted w -> persisted (dispatch_updatePortfolioItemRequest o coinId' q w).
Proof.
  intros Hw. unfold persisted in *.
  destruct (holding coinId' (items_of w)) as [item|] eqn:Hitem.
  - destruct (listed coinId' (coins_of w)) as [coin|] eqn:Hcoin.
    + destruct o as [|error].
      * destruct (update_request_resolves coinId' q w item coin Hitem Hcoin)
          as (i & _ & _ & _ & _ & ->).
        now rewrite lookup_insert_eq.
      * destruct (update_request_rejects error coinId' q w item coin Hitem Hcoin)
          as (_ & -> & ->). exact Hw.
    + destruct (update_request_unlisted o coinId' q w item Hitem Hcoin) as (_ & -> & ->).
      exact Hw.
  - destruct (update_request_missing o coinId' q w Hitem) as (_ & -> & ->). exact Hw.
Qed.

(** The storage follows the list: when it holds the text of the current
    list, it still does after an add and after an update, whether their
    write succeeds or fails; and after a removal whose write succeeds it does
    in any case. *)
Theorem edits_stay_in_sync (o : Outcome) (coin : Coin) (q d : number)
    (coinId' : string) (w : World) :
  persisted w ->
  persisted (handleAddToPortfolio o coin q w) /\
  persisted (handleUpdateQuantity o coinId' d w) /\
  persisted (dispatch_removeFromPortfolio Resolves coinId' w).
Proof.
  intros Hw. repeat apply conj.
  - now apply add_keeps_persisted.
  - unfold handleUpdateQuantity. destruct (PrimFloat.ltb 0 d); [|exact Hw].
    destruct (List.find _ _); [|exact Hw].
    now apply update_request_keeps_persisted.
  - unfold persisted.
    destruct (remove_effect Resolves coinId' w) as (_ & -> & ->).
    now rewrite lookup_insert_eq.
Qed.

(** A removal whose write is rejected takes the coin off the list without a
    word, but the storage still holds the list with the coin: a new process
    that loads the portfolio holds the coin again. *)
Theorem failed_remove_comes_back (error : Thrown) (coinId' : string) (now' : Z)
    (w : World) (item : PortfolioItem) :
  persisted w ->
  holding coinId' (items_of w) = Some item ->
  JSON_parse (JSON_stringify (items_of w)) = Some (items_of w) ->
  JSON_stringify (items_of w) <> "" ->
  let w' := dispatch_removeFromPortfolio (Rejects error) coinId' w in
  let w'' := loadFromStorage Resolves (fresh_instance now' w') in
  holding coinId' (items_of w') = None /\
  portfolio_error w' = portfolio_error w /\
  items_of w'' = items_of w /\
  holding coinId' (items_of w'') = Some item.
Proof.
  intros Hw Hitem Hparse Hne w' w''.
  destruct (remove_effect (Rejects error) coinId' w) as (Hs & Hi & Hd).
  fold w' in Hs, Hi, Hd.
  assert (Hstored : AsyncStorage.data (storage w') !! "portfolio"
                    = Some (JSON_stringify (items_of w))).
  { rewrite Hd. unfold persisted in Hw.
    destruct (AsyncStorage.data (storage w) !! "portfolio") as [text|]; [now subst|].
    rewrite Hw in Hitem. discriminate. }
  destruct (load_stored_text (fresh_instance now' w') _ _ Hstored Hne Hparse) as (Hl & _).
  fold w'' in Hl.
  repeat apply conj.
  - rewrite Hi. apply find_filter_negb.
  - unfold portfolio_error. now rewrite Hs.
  - exact Hl.
  - now rewrite Hl.
Qed.
End Restarting.

(** ** What no worker does *)

Section Workers.
Context `{JSON}.

(** No worker ends with an exception: every saga that a watcher starts
    returns normally, whatever the storage and the network do and whatever it
    is given, so that no failure reaches the root saga. *)
Theorem workers_never_throw (o : Outcome) (net : cryptoSaga.Fetch)
    (username password coinId' : string) (coin : Coin) (q : number) (w : World) :
  fst (authSaga.loginSaga o username password w) = inr tt /\
  fst (authSaga.checkAuthSaga o w) = inr tt /\
  fst (authSaga.logoutSaga o w) = inr tt /\
  fst (cryptoSaga.fetchCryptoDataSaga net w) = inr tt /\
  fst (portfolioSaga.addToPortfolioSaga o coin q w) = inr tt /\
  fst (portfolioSaga.updatePortfolioItemSaga o coinId' q w) = inr tt /\
  fst (portfolioSaga.removeFromPortfolioSaga o coinId' w) = inr tt /\
  fst (portfolioSaga.loadPortfolioFromStorageSaga o w) = inr tt.
Proof.
  repeat apply conj.
  - unfold authSaga.loginSaga, authSaga.authenticateUser, try_catch, bind.
    destruct (_ && _); destruct o; reflexivity.
  - unfold authSaga.checkAuthSaga, try_catch, bind. destruct o; reflexivity.
  - unfold authSaga.logoutSaga, try_catch. destruct o; reflexivity.
  - unfold cryptoSaga.fetchCryptoDataSaga, cryptoSaga.fetchCryptoData, try_catch, bind, select.
    destruct net as [[[|] text [error|coins]]|error]; simpl; try reflexivity.
    destruct (portfolioSlice.items (portfolio (state w))); reflexivity.
  - unfold portfolioSaga.addToPortfolioSaga, portfolioSaga.savePortfolioToStorage,
      try_catch, bind, select. destruct o; reflexivity.
  - unfold portfolioSaga.updatePortfolioItemSaga, portfolioSaga.savePortfolioToStorage,
      try_catch, bind, select. simpl.
    destruct (findIndex _ _) as [i|]; simpl; [|reflexivity].
    destruct (_ !! i); simpl; [|reflexivity].
    destruct (List.find _ _); simpl; [|reflexivity].
    destruct o; reflexivity.
  - unfold portfolioSaga.removeFromPortfolioSaga, portfolioSaga.savePortfolioToStorage,
      try_catch, bind, select. destruct o; reflexivity.
  - unfold portfolioSaga.loadPortfolioFromStorageSaga, try_catch, bind, AsyncStorage_getItem.
    destruct o; simpl; [|reflexivity].
    destruct (_ !! "portfolio") as [text|]; simpl; [|reflexivity].
    destruct (String.eqb text ""); simpl; [reflexivity|].
    destruct (JSON_parse text); reflexivity.
Qed.

(** No request leaves its loader up: after a login, a refresh, an add or an
    update, however it ends, the loading flag of its slice is down. *)
Theorem requests_clear_loading (o : Outcome) (net : cryptoSaga.Fetch)
    (username password coinId' : string) (coin : Coin) (q : number) (w : World) :
  auth_loading (login o username password w) = false /\
  crypto_loading (refreshOnce net w) = false /\
  portfolio_loading (dispatch_addToPortfolioRequest o coin q w) = false /\
  portfolio_loading (dispatch_updatePortfolioItemRequest o coinId' q w) = false.
Proof.
  repeat apply conj.
  - unfold auth_loading, login, exec, authSaga.loginSaga, authSaga.authenticateUser,
      try_catch, bind.
    destruct (_ && _); destruct o; reflexivity.
  - unfold crypto_loading, refreshOnce, exec, cryptoSaga.fetchCryptoDataSaga,
      cryptoSaga.fetchCryptoData, try_catch, bind, select.
    destruct net as [[[|] text [error|coins]]|error]; simpl; try reflexivity.
    destruct (portfolioSlice.items (portfolio (state w))); reflexivity.
  - unfold portfolio_loading, dispatch_addToPortfolioRequest, exec,
      portfolioSaga.addToPortfolioSaga, portfolioSaga.savePortfolioToStorage,
      try_catch, bind, select. destruct o; reflexivity.
  - unfold portfolio_loading, dispatch_updatePortfolioItemRequest, exec,
      portfolioSaga.updatePortfolioItemSaga, portfolioSaga.savePortfolioToStorage,
      try_catch, bind, select. simpl.
    destruct (findIndex _ _) as [i|]; simpl; [|reflexivity].
    destruct (_ !! i); simpl; [|reflexivity].
    destruct (List.find _ _); simpl; [|reflexivity].
    destruct o; reflexivity.
Qed.
End Workers.

(** ** These properties on the sample data *)

Section MoreExamples.
#[local] Existing Instance Sample.json.

Lemma login_restore_round_trip_witness :
  logged_in sample_session = true /\
  logged_in (checkAuth Resolves (fresh_instance 1700000086400 sample_session)) = true /\
  session_token (checkAuth Resolves (fresh_instance 1700000086400 sample_session))
  = session_token sample_session.
Proof.
  split; [reflexivity|].
  exact (login_restore_round_trip Resolves "admin" "admin123" 1700000086400
           (initialWorld 1700000000000) eq_refl).
Defined.

Lemma failed_logout_session_survives_witness :
  let w' := dispatch_logout (Rejects (Error "disk error")) sample_session in
  let w'' := checkAuth Resolves (fresh_instance 1700000086400 w') in
  AsyncStorage.data (storage sample_session) !! "authToken"
    = Some "dummy_token_1700000000000" /\
  logged_in w' = false /\ auth_error w' = None /\
  logged_in w'' = true /\ session_token w'' = Some "dummy_token_1700000000000".
Proof.
  split; [reflexivity|].
  apply (failed_logout_session_survives (Error "disk error") 1700000086400 sample_session
           "dummy_token_1700000000000" eq_refl).
  discriminate.
Defined.

Lemma add_new_coin_appends_witness :
  let w' := handleAddToPortfolio Resolves Sample.ethereum 4 Sample.holding_bitcoin in
  holding "ethereum" (items_of Sample.holding_bitcoin) = None /\
  items_of w' = items_of Sample.holding_bitcoin ++ [item_of_coin Sample.ethereum 4] /\
  totalValue (items_of w')
    = PrimFloat.add (totalValue (items_of Sample.holding_bitcoin)) (PrimFloat.mul 3000 4) /\
  portfolio_error w' = None.
Proof.
  split; [reflexivity|].
  exact (add_new_coin_appends Sample.ethereum 4 Sample.holding_bitcoin eq_refl eq_refl).
Defined.

Lemma add_held_coin_replaces_witness :
  let w' := handleAddToPortfolio Resolves Sample.bitcoin_repriced 5 Sample.holding_bitcoin in
  holding "bitcoin" (items_of Sample.holding_bitcoin) = Some (item_of_coin Sample.bitcoin 2) /\
  holding "bitcoin" (items_of w') = Some (item_of_coin Sample.bitcoin_repriced 5) /\
  length (items_of w') = length (items_of Sample.holding_bitcoin).
Proof.
  split; [reflexivity|].
  destruct (add_held_coin_replaces Sample.bitcoin_repriced 5 Sample.holding_bitcoin
              (item_of_coin Sample.bitcoin 2) eq_refl eq_refl) as (Hnew & Hlen & _).
  exact (conj Hnew Hlen).
Defined.

Lemma add_twice_keeps_last_witness :
  items_of (handleAddToPortfolio Resolves Sample.bitcoin_repriced 5
              (handleAddToPortfolio Resolves Sample.bitcoin 2 Sample.loaded))
  = items_of (handleAddToPortfolio Resolves Sample.bitcoin_repriced 5 Sample.loaded).
Proof.
  destruct (add_twice_keeps_last Sample.bitcoin Sample.bitcoin_repriced 2 5 Sample.loaded
              eq_refl eq_refl eq_refl) as [Hitems _].
  exact Hitems.
Defined.

Lemma add_then_remove_witness :
  holding "ethereum" (items_of Sample.holding_bitcoin) = None /\
  items_of (dispatch_removeFromPortfolio (Rejects NotAnError) "ethereum"
              (handleAddToPortfolio Resolves Sample.ethereum 4 Sample.holding_bitcoin))
  = items_of Sample.holding_bitcoin.
Proof.
  split; [reflexivity|].
  exact (add_then_remove (Rejects NotAnError) Sample.ethereum 4 Sample.holding_bitcoin
           eq_refl eq_refl).
Defined.

Lemma portfolio_ids_unique_witness :
  NoDup (List.map coinId (items_of Sample.holding_bitcoin)) /\
  NoDup (List.map coinId
           (items_of (mutate (Add Resolves Sample.bitcoin_repriced 5) Sample.holding_bitcoin))).
Proof.
  assert (Hstart : NoDup (List.map coinId (items_of Sample.holding_bitcoin))).
  { apply NoDup_singleton. }
  split; [exact Hstart|].
  exact (portfolio_ids_unique (Add Resolves Sample.bitcoin_repriced 5)
           Sample.holding_bitcoin Hstart).
Defined.

Lemma update_missing_item_witness :
  holding "ethereum" (items_of Sample.holding_bitcoin) = None /\
  portfolio_error (dispatch_updatePortfolioItemRequest Resolves "ethereum" 3
                     Sample.holding_bitcoin)
  = Some "Portfolio item not found" /\
  handleUpdateQuantity Resolves "ethereum" 3 Sample.holding_bitcoin = Sample.holding_bitcoin.
Proof.
  split; [reflexivity|].
  destruct (update_missing_item Resolves "ethereum" Sample.holding_bitcoin eq_refl)
    as [Hrequest Hhandler].
  destruct (Hrequest 3%float) as [Herr _].
  exact (conj Herr (Hhandler 3%float)).
Defined.

Lemma update_write_failure_witness :
  let w' := handleUpdateQuantity (Rejects (Error "disk full")) "bitcoin" 1
              Sample.holding_bitcoin in
  portfolio_error w' = Some "Failed to save portfolio to AsyncStorage" /\
  items_of w' = items_of Sample.holding_bitcoin /\
  storage w' = storage Sample.holding_bitcoin.
Proof.
  exact (update_write_failure (Error "disk full") "bitcoin" 1 Sample.holding_bitcoin
           (item_of_coin Sample.bitcoin 2) Sample.bitcoin eq_refl eq_refl eq_refl).
Defined.

Lemma update_touches_one_item_witness :
  let w := handleAddToPortfolio Resolves Sample.ethereum 4 Sample.holding_bitcoin in
  let w' := handleUpdateQuantity Resolves "bitcoin" 1 w in
  List.map coinId (items_of w') = ["bitcoin"; "ethereum"] /\
  holding "ethereum" (items_of w') = Some (item_of_coin Sample.ethereum 4).
Proof.
  destruct (update_touches_one_item "bitcoin" 1
              (handleAddToPortfolio Resolves Sample.ethereum 4 Sample.holding_bitcoin)
              (item_of_coin Sample.bitcoin 2) Sample.bitcoin eq_refl eq_refl eq_refl)
    as (_ & Hids & Hothers & _).
  split; [exact Hids|].
  apply (Hothers "ethereum"). discriminate.
Defined.

Lemma refresh_last_price_wins_witness :
  items_of Sample.holding_bitcoin !! 0 = Some (item_of_coin Sample.bitcoin 2) /\
  items_of (refreshOnce
              (fetched ([Sample.bitcoin] ++ Sample.bitcoin_repriced :: [Sample.ethereum]) "OK")
              Sample.holding_bitcoin) !! 0
  = Some (repriced (item_of_coin Sample.bitcoin 2) (Number 60000)).
Proof.
  split; [reflexivity|].
  apply (refresh_last_price_wins [Sample.bitcoin] [Sample.ethereum] Sample.bitcoin_repriced
           "OK" Sample.holding_bitcoin 0 (item_of_coin Sample.bitcoin 2) eq_refl eq_refl).
  - discriminate.
  - simpl. intros [Heq|[]]. discriminate.
Defined.

Lemma load_degrades_to_empty_witness :
  AsyncStorage.data (storage (fresh_instance 0 Sample.loaded)) !! "portfolio" = None /\
  items_of (loadFromStorage Resolves (fresh_instance 0 Sample.loaded)) = [].
Proof.
  split; [reflexivity|].
  destruct (load_degrades_to_empty Resolves (fresh_instance 0 Sample.loaded)
              (or_intror (or_introl eq_refl))) as [Hempty _].
  exact Hempty.
Defined.

Lemma sample_added_bitcoin_persisted : persisted Sample.added_bitcoin.
Proof. apply reachable_by_add_persisted. apply by_add_step, by_add_start. Qed.

Lemma edits_stay_in_sync_witness :
  persisted Sample.added_bitcoin /\
  persisted (handleAddToPortfolio (Rejects NotAnError) Sample.ethereum 4 Sample.added_bitcoin) /\
  persisted (handleUpdateQuantity Resolves "bitcoin" 1 Sample.added_bitcoin) /\
  persisted (dispatch_removeFromPortfolio Resolves "bitcoin" Sample.added_bitcoin).
Proof.
  split; [exact sample_added_bitcoin_persisted|].
  exact (edits_stay_in_sync (Rejects NotAnError) Sample.ethereum 4 1 "bitcoin"
           Sample.added_bitcoin sample_added_bitcoin_persisted).
Defined.

Lemma failed_remove_comes_back_witness :
  let w' := dispatch_removeFromPortfolio (Rejects (Error "disk full")) "bitcoin"
              Sample.added_bitcoin in
  let w'' := loadFromStorage Resolves (fresh_instance 1700000086400 w') in
  holding "bitcoin" (items_of w') = None /\
  portfolio_error w' = portfolio_error Sample.added_bitcoin /\
  items_of w'' = items_of Sample.added_bitcoin /\
  holding "bitcoin" (items_of w'') = Some (item_of_coin Sample.bitcoin 2).
Proof.
  apply (failed_remove_comes_back (Error "disk full") "bitcoin" 1700000086400
           Sample.added_bitcoin (item_of_coin Sample.bitcoin 2)
           sample_added_bitcoin_persisted eq_refl eq_refl).
  discriminate.
Defined.
End MoreExamples.
